(** * Daily 60s-news plugin: a shallow embedding of [main.py]

    The plugin downloads one news image per day, keeps it in a cache
    directory under a date-stamped name, pushes it to the configured groups at
    a fixed local time and sweeps old files.  This development embeds the
    scheduling, download, cache and broadcast methods of
    [Daily60sNewsPlugin] and proves properties of them.

    Conventions.
    - Everything the interpreter obtains from outside (the clock, HTTP
      responses, the outcome of opening, writing and unlinking files, the
      host's [send_message]) is read from an oracle record [env]; a logical
      tick in the [world] numbers the queries.
    - Python exceptions are values of type [exn]; a computation returns
      [Ok v] or [Raise e] together with the new world and the events it
      produced.  Only subclasses of [Exception] are modelled:
      [asyncio.CancelledError] is delivered from outside the task (by
      [terminate]) and is not an outcome of any function below.
    - Durations are integers in microseconds, the resolution of
      [datetime.timedelta]; [total_seconds()] is that number divided by
      10^6 (Python rounds the quotient to a float).
    - A [str] is the string of its UTF-8 bytes.  The reading of numbers
      and dates is that of Python on ASCII text; a statement that
      depends on it says which text has to be ASCII.
    - The file system is a map from paths to the contents of plain
      files.  The cache directory exists, holds plain files only and can
      be listed: [os.listdir] is the one call on the file system that
      has no failing outcome here. *)

From Stdlib Require Import ZArith Lia String Ascii List Bool.
From stdpp Require Import base option list gmap strings pretty.

Local Open Scope string_scope.
Local Open Scope Z_scope.
Local Open Scope list_scope.

(* ===================================================================== *)
(** ** Python's proleptic Gregorian calendar ([datetime] module)          *)
(* ===================================================================== *)

Module Calendar.

Definition MINYEAR : Z := 1.
Definition MAXYEAR : Z := 9999.
(** [date.max.toordinal()] *)
Definition _MAXORDINAL : Z := 3652059.

Definition _is_leap (year : Z) : bool :=
  (year mod 4 =? 0) && (negb (year mod 100 =? 0) || (year mod 400 =? 0)).

Definition _days_before_year (year : Z) : Z :=
  let y := year - 1 in
  y * 365 + y / 4 - y / 100 + y / 400.

Definition _DAYS_IN_MONTH (month : Z) : Z :=
  match month with
  | 1 => 31 | 2 => 28 | 3 => 31 | 4 => 30 | 5 => 31 | 6 => 30
  | 7 => 31 | 8 => 31 | 9 => 30 | 10 => 31 | 11 => 30 | 12 => 31
  | _ => -1
  end.

Definition _DAYS_BEFORE_MONTH (month : Z) : Z :=
  match month with
  | 1 => 0 | 2 => 31 | 3 => 59 | 4 => 90 | 5 => 120 | 6 => 151
  | 7 => 181 | 8 => 212 | 9 => 243 | 10 => 273 | 11 => 304 | 12 => 334
  | _ => -1
  end.

Definition _days_in_month (year month : Z) : Z :=
  if (month =? 2) && _is_leap year then 29 else _DAYS_IN_MONTH month.

Definition _days_before_month (year month : Z) : Z :=
  _DAYS_BEFORE_MONTH month + (if (2 <? month) && _is_leap year then 1 else 0).

Definition _ymd2ord (year month day : Z) : Z :=
  _days_before_year year + _days_before_month year month + day.

Definition _DI400Y : Z := 146097.
Definition _DI100Y : Z := 36524.
Definition _DI4Y : Z := 1461.

Definition _ord2ymd (ordinal : Z) : Z * Z * Z :=
  let n := ordinal - 1 in
  let n400 := n / _DI400Y in
  let n := n mod _DI400Y in
  let year := n400 * 400 + 1 in
  let n100 := n / _DI100Y in
  let n := n mod _DI100Y in
  let n4 := n / _DI4Y in
  let n := n mod _DI4Y in
  let n1 := n / 365 in
  let n := n mod 365 in
  let year := year + n100 * 100 + n4 * 4 + n1 in
  if (n1 =? 4) || (n100 =? 4) then (year - 1, 12, 31)
  else
    let leapyear := (n1 =? 3) && (negb (n4 =? 24) || (n100 =? 3)) in
    let month := Z.shiftr (n + 50) 5 in
    let preceding :=
      _DAYS_BEFORE_MONTH month + (if (2 <? month) && leapyear then 1 else 0) in
    if n <? preceding then
      let month' := month - 1 in
      let preceding' :=
        preceding
        - (_DAYS_IN_MONTH month' + (if (month' =? 2) && leapyear then 1 else 0)) in
      (year, month', n - preceding' + 1)
    else (year, month, n - preceding + 1).

(** [_check_date_fields]: the test the [date] constructor applies. *)
Definition _check_date_fields (year month day : Z) : bool :=
  (MINYEAR <=? year) && (year <=? MAXYEAR)
  && (1 <=? month) && (month <=? 12)
  && (1 <=? day) && (day <=? _days_in_month year month).

End Calendar.

(* ===================================================================== *)
(** ** Exceptions                                                         *)
(* ===================================================================== *)

(** An exception is its class name and [str(e)].  The messages of
    exceptions raised by the interpreter or by a library are kept short;
    those the plugin raises itself are the strings of the source. *)
Record exn := Exn { exn_type : string; exn_str : string }.

Definition ValueError (msg : string) : exn := Exn "ValueError" msg.
Definition TypeError (msg : string) : exn := Exn "TypeError" msg.
Definition OverflowError (msg : string) : exn := Exn "OverflowError" msg.
Definition AttributeError (msg : string) : exn := Exn "AttributeError" msg.
Definition Exception (msg : string) : exn := Exn "Exception" msg.

(** Result of a pure library call that may raise. *)
Inductive pyres (A : Type) : Type :=
| Ok (a : A)
| Raise (e : exn).
Arguments Ok {A} a.
Arguments Raise {A} e.

(* ===================================================================== *)
(** ** [datetime.datetime], [datetime.date], [datetime.timedelta]         *)
(* ===================================================================== *)

Module DateTime.
Import Calendar.

(** A [date] is held as its ordinal ([date.toordinal()]): day 1 is
    0001-01-01.  All date arithmetic of the [datetime] module goes
    through the ordinal. *)
Abbreviation date := Z (only parsing).

(** [date(year, month, day)] *)
Definition mk_date (year month day : Z) : pyres date :=
  if _check_date_fields year month day
  then Ok (_ymd2ord year month day)
  else Raise (ValueError "date value out of range").

(** A naive [datetime]: the date and the four time-of-day fields. *)
Record datetime := DT {
  dt_date : date;
  dt_hour : Z;
  dt_minute : Z;
  dt_second : Z;
  dt_microsecond : Z
}.

(** The invariant the [datetime] constructor maintains. *)
Definition dt_valid (d : datetime) : Prop :=
  1 <= dt_date d <= _MAXORDINAL
  /\ 0 <= dt_hour d < 24 /\ 0 <= dt_minute d < 60
  /\ 0 <= dt_second d < 60 /\ 0 <= dt_microsecond d < 1000000.

Definition dt_validb (d : datetime) : bool :=
  (1 <=? dt_date d) && (dt_date d <=? _MAXORDINAL)
  && (0 <=? dt_hour d) && (dt_hour d <? 24)
  && (0 <=? dt_minute d) && (dt_minute d <? 60)
  && (0 <=? dt_second d) && (dt_second d <? 60)
  && (0 <=? dt_microsecond d) && (dt_microsecond d <? 1000000).

(** A [timedelta], as its total number of microseconds. *)
Abbreviation timedelta := Z (only parsing).
Definition US_PER_SECOND : Z := 1000000.
Definition US_PER_DAY : Z := 86400 * US_PER_SECOND.
Definition td_days (n : Z) : timedelta := n * US_PER_DAY.
Definition seconds (n : Z) : timedelta := n * US_PER_SECOND.

(** Microseconds from midnight of day 0 to [d]. *)
Definition dt_micros (d : datetime) : Z :=
  dt_date d * US_PER_DAY
  + ((dt_hour d * 60 + dt_minute d) * 60 + dt_second d) * US_PER_SECOND
  + dt_microsecond d.

(** [d.replace(hour=h, minute=m, second=0, microsecond=0)] *)
Definition dt_replace_hm00 (d : datetime) (h m : Z) : pyres datetime :=
  if negb ((0 <=? h) && (h <=? 23)) then Raise (ValueError "hour must be in 0..23")
  else if negb ((0 <=? m) && (m <=? 59)) then Raise (ValueError "minute must be in 0..59")
  else Ok (DT (dt_date d) h m 0 0).

(** [a <= b] on naive datetimes: lexicographic on the fields. *)
Definition dt_cmp (a b : datetime) : comparison :=
  match dt_date a ?= dt_date b with
  | Eq =>
    match dt_hour a ?= dt_hour b with
    | Eq =>
      match dt_minute a ?= dt_minute b with
      | Eq =>
        match dt_second a ?= dt_second b with
        | Eq => dt_microsecond a ?= dt_microsecond b
        | c => c
        end
      | c => c
      end
    | c => c
    end
  | c => c
  end.

Definition dt_le (a b : datetime) : bool :=
  match dt_cmp a b with Gt => false | _ => true end.

(** [d + td] ([datetime.__add__]): the sum is split again into days,
    hours, minutes, seconds and microseconds with floor division, and
    a day outside [1, _MAXORDINAL] is an [OverflowError]. *)
Definition dt_add (d : datetime) (td : timedelta) : pyres datetime :=
  let total := dt_micros d + td in
  let days := total / US_PER_DAY in
  let rem := total mod US_PER_DAY in
  let secs := rem / US_PER_SECOND in
  let us := rem mod US_PER_SECOND in
  let hour := secs / 3600 in
  let minute := (secs mod 3600) / 60 in
  let second := (secs mod 3600) mod 60 in
  if (0 <? days) && (days <=? _MAXORDINAL)
  then Ok (DT days hour minute second us)
  else Raise (OverflowError "date value out of range").

(** [a - b] ([datetime.__sub__] on two naive datetimes) *)
Definition dt_sub (a b : datetime) : timedelta := dt_micros a - dt_micros b.

(** [d.strftime("%Y%m%d")] and [d.strftime("%Y-%m-%d")]. *)
Definition pad (width : nat) (n : Z) : string :=
  let s := pretty n in
  String.concat EmptyString (repeat "0" (width - String.length s)%nat) +:+ s.

Definition strftime_Ymd (sep : string) (d : datetime) : string :=
  let '(y, m, dd) := _ord2ymd (dt_date d) in
  pad 4 y +:+ sep +:+ pad 2 m +:+ sep +:+ pad 2 dd.

End DateTime.

(* ===================================================================== *)
(** ** Python builtins on [str] used by the plugin                        *)
(* ===================================================================== *)

(** Strings are byte strings: a Python [str] stands here as its UTF-8
    bytes.  On ASCII text, where a character is a byte, the functions
    below are those of Python.  Outside ASCII they are not: Python's
    [int()] and the digit class of [re] also read the decimal digits of
    other scripts, [int()] also skips their blanks, and a slice counts
    characters where [take] counts bytes.  Statements that
    depend on how a text is read therefore ask for [isascii] of the
    part that is read. *)
Module PyStr.

(** [s.isascii()] *)
Definition isascii (s : string) : bool :=
  forallb (fun c => (nat_of_ascii c <? 128)%nat) (list_ascii_of_string s).

(** [sys.int_info.default_max_str_digits]: a decimal text of more
    digits is refused by [int()], whatever its value, unless the
    interpreter is set otherwise. *)
Definition default_max_str_digits : nat := 4300.

Definition is_digit (c : ascii) : bool :=
  let n := nat_of_ascii c in (48 <=? n)%nat && (n <=? 57)%nat.

Definition digit_val (c : ascii) : Z := Z.of_nat (nat_of_ascii c) - 48.

Definition in_range (lo hi : ascii) (c : ascii) : bool :=
  let n := nat_of_ascii c in
  (nat_of_ascii lo <=? n)%nat && (n <=? nat_of_ascii hi)%nat.

Definition is_char (a c : ascii) : bool := Ascii.eqb a c.

(** Blanks that [int()] skips at both ends of an ASCII text: tab to
    carriage return, and the space. *)
Definition is_space (c : ascii) : bool :=
  let n := nat_of_ascii c in
  ((9 <=? n)%nat && (n <=? 13)%nat) || (n =? 32)%nat.

(** [s.split(sep)] for a one-character separator. *)
Fixpoint split (sep : ascii) (s : string) : list string :=
  match s with
  | EmptyString => [EmptyString]
  | String c s' =>
    if Ascii.eqb c sep then EmptyString :: split sep s'
    else match split sep s' with
         | h :: t => String c h :: t
         | [] => [String c EmptyString]
         end
  end.

Fixpoint lstrip (s : string) : string :=
  match s with
  | String c s' => if is_space c then lstrip s' else s
  | EmptyString => EmptyString
  end.

Fixpoint rstrip (s : string) : string :=
  match s with
  | EmptyString => EmptyString
  | String c s' =>
    match rstrip s' with
    | EmptyString => if is_space c then EmptyString else String c EmptyString
    | r => String c r
    end
  end.

Definition strip (s : string) : string := rstrip (lstrip s).

(** Decimal digits with single underscores between them. *)
Fixpoint digits (s : string) (acc : Z) (after_digit : bool) : option Z :=
  match s with
  | EmptyString => if after_digit then Some acc else None
  | String c s' =>
    if is_digit c then digits s' (10 * acc + digit_val c) true
    else if is_char "_" c then
           if after_digit then digits s' acc false else None
         else None
  end.

(** [int(s)] on ASCII text.  The bound that the interpreter puts on
    the number of digits of a decimal text is a setting of the
    interpreter ([default_max_str_digits] unless changed) and is not
    part of this function. *)
Definition int (s : string) : pyres Z :=
  let bad := Raise (ValueError ("invalid literal for int() with base 10: '" +:+ s +:+ "'")) in
  match strip s with
  | String "-" r => match digits r 0 false with Some n => Ok (- n) | None => bad end
  | String "+" r => match digits r 0 false with Some n => Ok n | None => bad end
  | r => match digits r 0 false with Some n => Ok n | None => bad end
  end.

(** [s[:n]] *)
Fixpoint take (n : nat) (s : string) : string :=
  match n, s with
  | S n', String c s' => String c (take n' s')
  | _, _ => EmptyString
  end.

(** [os.path.join(a, b)] on POSIX, for a non-empty [a] without a
    trailing slash. *)
Definition os_path_join (a b : string) : string :=
  match b with
  | String "/" _ => b
  | _ => a +:+ "/" +:+ b
  end.

End PyStr.

(* ===================================================================== *)
(** ** [datetime.strptime(s, "%Y%m%d")]                                   *)
(* ===================================================================== *)

Module Strptime.
Import PyStr Calendar DateTime.

(** One alternative of a directive: a sequence of character classes. *)
Definition classes := list (ascii -> bool).

Fixpoint match_classes (cs : classes) (s : string) : option (string * string) :=
  match cs with
  | [] => Some (EmptyString, s)
  | c :: cs' =>
    match s with
    | String a s' =>
      if c a then
        match match_classes cs' s' with
        | Some (txt, rest) => Some (String a txt, rest)
        | None => None
        end
      else None
    | EmptyString => None
    end
  end.

Definition first_some {A B} (f : A -> option B) (l : list A) : option B :=
  foldr (fun a acc => match f a with Some b => Some b | None => acc end) None l.

(** A backtracking match of a sequence of groups, each a list of
    alternatives tried in order: the first match the [re] engine finds. *)
Fixpoint match_groups (gs : list (list classes)) (s : string)
  : option (list string * string) :=
  match gs with
  | [] => Some ([], s)
  | alts :: gs' =>
    first_some
      (fun a =>
         match match_classes a s with
         | Some (txt, rest) =>
           match match_groups gs' rest with
           | Some (txts, rest') => Some (txt :: txts, rest')
           | None => None
           end
         | None => None
         end) alts
  end.

(** The regular expressions [_strptime] compiles for [%Y], [%m], [%d]. *)
Definition re_Y : list classes := [[is_digit; is_digit; is_digit; is_digit]].
Definition re_m : list classes :=
  [[is_char "1"; in_range "0" "2"]; [is_char "0"; in_range "1" "9"]; [in_range "1" "9"]].
Definition re_d : list classes :=
  [[is_char "3"; in_range "0" "1"]; [in_range "1" "2"; is_digit];
   [is_char "0"; in_range "1" "9"]; [in_range "1" "9"]; [is_char " "; in_range "1" "9"]].

(** [datetime.datetime.strptime(s, "%Y%m%d").date()] *)
Definition strptime_Ymd (s : string) : pyres date :=
  match match_groups [re_Y; re_m; re_d] s with
  | None => Raise (ValueError "time data does not match format '%Y%m%d'")
  | Some ([y; m; d], rest) =>
    match rest with
    | String _ _ => Raise (ValueError ("unconverted data remains: " +:+ rest))
    | EmptyString =>
      match int y, int m, int d with
      | Ok year, Ok month, Ok day => mk_date year month day
      | _, _, _ => Raise (ValueError "invalid literal for int()")
      end
    end
  | Some _ => Raise (ValueError "time data does not match format '%Y%m%d'")
  end.

End Strptime.


(* ===================================================================== *)
(** ** JSON values as the downloader inspects them                        *)
(* ===================================================================== *)

Module Json.

(** A value stored under a key of the response object.  Numbers are
    integers; an array or object is kept as whether it is non-empty and
    how [str()] prints it, the two things the plugin can observe. *)
Inductive jval :=
| JNull
| JBool (b : bool)
| JInt (n : Z)
| JStr (s : string)
| JOther (nonempty : bool) (shown : string).

(** What [await response.json()] returns: a [dict], or something that
    has no [get] method, given by its type name. *)
Inductive json_doc :=
| JsonObject (fields : gmap string jval)
| JsonNotObject (type_name : string).

(** [v == 200] *)
Definition eq_200 (v : jval) : bool :=
  match v with JInt n => n =? 200 | _ => false end.

(** Truth value, as [not v] sees it. *)
Definition truthy (v : jval) : bool :=
  match v with
  | JNull => false
  | JBool b => b
  | JInt n => negb (n =? 0)
  | JStr s => match s with EmptyString => false | _ => true end
  | JOther nonempty _ => nonempty
  end.

(** [str(v)], as an f-string inserts it. *)
Definition py_str (v : jval) : string :=
  match v with
  | JNull => "None"
  | JBool true => "True"
  | JBool false => "False"
  | JInt n => pretty n
  | JStr s => s
  | JOther _ shown => shown
  end.

(** [data.get(key)] and [data.get(key, dflt)] *)
Definition dict_get (key : string) (dflt : jval) (data : json_doc) : pyres jval :=
  match data with
  | JsonObject fields => Ok (default dflt (fields !! key))
  | JsonNotObject ty =>
    Raise (AttributeError ("'" +:+ ty +:+ "' object has no attribute 'get'"))
  end.

End Json.

(* ===================================================================== *)
(** ** The world the plugin runs in                                        *)
(* ===================================================================== *)

Module Runtime.
Import Calendar DateTime PyStr Json.

(** An [aiohttp] response: its status, and what [read()] and [json()]
    give when awaited. *)
Record response := Response {
  status : Z;
  read : pyres string;
  json : pyres json_doc
}.

(** [with open(path, "wb") as f: f.write(content)] *)
Inductive write_outcome :=
| Written
| OpenFails (e : exn)
| WriteFails (e : exn).

(** [MessageChain().message(text).file_image(path)] *)
Record message_chain := Chain { chain_text : string; chain_image : string }.

(** The oracle.  The [nat] argument is the tick of the query. *)
Record env := Env {
  env_now : nat -> datetime;
  env_get : nat -> string -> pyres response;
  env_write : nat -> string -> write_outcome;
  env_remove : string -> option exn;
  env_send : nat -> string -> message_chain -> option exn
}.

Record world := World {
  w_tick : nat;
  w_fs : gmap string string   (* path |-> content of the file *)
}.

Inductive level := INFO | ERROR.

(** The records the plugin hands to [logger], one constructor per call
    site, with the values its f-string inserts. *)
Inductive log_msg :=
| LogPath (path : string)             (* "mnews path: {path}" *)
| LogForceUpdate                      (* "开始强制更新新闻文件..." *)
| LogStartDownload (url : string)     (* "开始下载新闻文件:{url}..." *)
| LogStartFetch (url : string)        (* "开始获取新闻数据:{url}..." *)
| LogStartImage (url : string)        (* "开始下载图片:{image_url}..." *)
| LogRetry (attempt retries : Z) (e : exn)
                                      (* "[mnews] 请求失败，正在重试 {attempt + 1}/{retries} 次: {e}" *)
| LogGiveUp (e : exn)                 (* "[mnews] 请求新闻接口失败: {e}" *)
| LogPushImage (path : string)        (* "[每日新闻] 推送图片新闻: {news_path}" *)
| LogPushed (target : string)         (* "[每日新闻] 已向{target}推送定时新闻。" *)
| LogPushFailed (msg : string)        (* "[每日新闻] 推送新闻失败: {error_message}" *)
| LogDetail                           (* logger.exception("详细错误信息：") *)
| LogNextPush (sleep_time : timedelta)
                                      (* "[每日新闻] 下次推送将在 {sleep_time / 3600:.2f} 小时后" *)
| LogTaskError (e : exn).             (* "[每日新闻] 定时任务出错: {e}" *)

Inductive event :=
| EvLog (lvl : level) (m : log_msg)
| EvPrintExc (e : exn)                         (* traceback.print_exc() *)
| EvSleep (d : timedelta)                      (* await asyncio.sleep(d) *)
| EvGet (url : string) (timeout : Z)           (* session.get(url, timeout=..) *)
| EvWrite (path : string) (content : string)   (* open(path, "wb"), f.write *)
| EvRemove (path : string)                     (* os.remove(path) *)
| EvSend (target : string) (chain : message_chain).

(** A computation: the result, the world after it, and the events it
    produced, oldest first. *)
Definition M (A : Type) : Type := world -> pyres A * world * list event.

Definition ret {A} (a : A) : M A := fun w => (Ok a, w, []).

Definition raise {A} (e : exn) : M A := fun w => (Raise e, w, []).

Definition bind {A B} (m : M A) (k : A -> M B) : M B :=
  fun w =>
    match m w with
    | (Ok a, w1, t1) => let '(r, w2, t2) := k a w1 in (r, w2, t1 ++ t2)
    | (Raise e, w1, t1) => (Raise e, w1, t1)
    end.

(** [try: m  except Exception as e: h e] *)
Definition try_except {A} (m : M A) (h : exn -> M A) : M A :=
  fun w =>
    match m w with
    | (Ok a, w1, t1) => (Ok a, w1, t1)
    | (Raise e, w1, t1) => let '(r, w2, t2) := h e w1 in (r, w2, t1 ++ t2)
    end.

Definition lift {A} (r : pyres A) : M A := fun w => (r, w, []).

Definition emit (ev : event) : M unit := fun w => (Ok tt, w, [ev]).

Definition tick (w : world) : world := World (S (w_tick w)) (w_fs w).

Declare Scope py_scope.
Delimit Scope py_scope with py.
Notation "'let*' x ':=' m 'in' k" := (bind m (fun x => k))
  (at level 10, x name, m at level 100, k at level 200) : py_scope.
Notation "'let*' ' p ':=' m 'in' k" := (bind m (fun x => match x with p => k end))
  (at level 10, p pattern, m at level 100, k at level 200) : py_scope.
Notation "m1 ';;;' m2" := (bind m1 (fun _ => m2))
  (at level 100, m2 at level 200, right associativity) : py_scope.
Local Open Scope py_scope.

Definition logger_info (m : log_msg) : M unit := emit (EvLog INFO m).
Definition logger_error (m : log_msg) : M unit := emit (EvLog ERROR m).
Definition asyncio_sleep (d : timedelta) : M unit := emit (EvSleep d).
Definition print_exc (e : exn) : M unit := emit (EvPrintExc e).

(** [os.path.exists(path)] *)
Definition os_path_exists (path : string) : M bool :=
  fun w => (Ok (bool_decide (is_Some (w_fs w !! path))), w, []).

Fixpoint strip_prefix (p s : string) : option string :=
  match p, s with
  | EmptyString, _ => Some s
  | String a p', String b s' => if Ascii.eqb a b then strip_prefix p' s' else None
  | String _ _, EmptyString => None
  end.

Fixpoint has_slash (s : string) : bool :=
  match s with
  | EmptyString => false
  | String c s' => Ascii.eqb c "/" || has_slash s'
  end.

(** The name of [path] inside directory [dir], when it lies directly
    in it. *)
Definition entry_of (dir path : string) : option string :=
  match strip_prefix (dir +:+ "/") path with
  | Some name => if has_slash name then None else Some name
  | None => None
  end.

(** [os.listdir(dir)]: the names of the files directly in [dir], in
    the order the file system enumerates them. *)
Definition listdir (dir : string) (fs : gmap string string) : list string :=
  omap (entry_of dir) (elements (dom fs)).

Definition os_listdir (dir : string) : M (list string) :=
  fun w => (Ok (listdir dir (w_fs w)), w, []).

Section WithEnv.
Variable E : env.

(** [datetime.datetime.now()] *)
Definition datetime_now : M datetime :=
  fun w => (Ok (env_now E (w_tick w)), tick w, []).

(** [datetime.date.today()] *)
Definition date_today : M date :=
  let* now := datetime_now in ret (dt_date now).

(** [session.get(url, timeout=timeout)], entered as a context manager *)
Definition session_get (url : string) (timeout : Z) : M response :=
  fun w => (env_get E (w_tick w) url, tick w, [EvGet url timeout]).

(** [with open(path, "wb") as f: f.write(content)] *)
Definition write_file (path content : string) : M unit :=
  fun w =>
    match env_write E (w_tick w) path with
    | Written =>
      (Ok tt, World (S (w_tick w)) (<[path := content]> (w_fs w)),
       [EvWrite path content])
    | OpenFails e => (Raise e, tick w, [EvWrite path content])
    | WriteFails e =>
      (Raise e, World (S (w_tick w)) (<[path := EmptyString]> (w_fs w)),
       [EvWrite path content])
    end.

(** [os.remove(path)] *)
Definition os_remove (path : string) : M unit :=
  fun w =>
    match w_fs w !! path with
    | None => (Raise (Exn "FileNotFoundError" path), w, [EvRemove path])
    | Some _ =>
      match env_remove E path with
      | Some e => (Raise e, w, [EvRemove path])
      | None => (Ok tt, World (w_tick w) (delete path (w_fs w)), [EvRemove path])
      end
    end.

(** [await self.context.send_message(target, chain)] *)
Definition send_message (target : string) (chain : message_chain) : M unit :=
  fun w =>
    match env_send E (w_tick w) target chain with
    | Some e => (Raise e, tick w, [EvSend target chain])
    | None => (Ok tt, tick w, [EvSend target chain])
    end.

End WithEnv.

End Runtime.

(* ===================================================================== *)
(** ** [Daily60sNewsPlugin]                                                *)
(* ===================================================================== *)

Module Plugin.
Import Calendar DateTime PyStr Strptime Json Runtime.
Local Open Scope py_scope.

(** [SAVED_NEWS_DIR] *)
Definition SAVED_NEWS_DIR : string :=
  "data/plugin_data/astrbot_plugin_daily_60s_news/news".

(** The configuration object the host passes to the constructor. *)
Record config := Config {
  cfg_news_type : option string;
  cfg_groups : list string;
  cfg_push_time : string;
  cfg_vikiboss_api : string;
  cfg_indirect : string;
  cfg_img_key : string;
  cfg_date_key : string;
  cfg_direct : string;
  cfg_is_debug : bool;
  cfg_save_days : Z
}.

(** The attributes of [self].  An attribute the constructor did not
    set is [None] here and an [AttributeError] when read. *)
Record plugin := Self {
  self_config : config;
  news_type : string;
  news_path : string;
  groups : list string;
  push_time : string;
  api : option string;
  img_key : option string;
  date_key : option string;
  img_url : option string;
  is_debug : bool
}.

Definition __init__ (cfg : config) : plugin :=
  let news_type := default "indirect" (cfg_news_type cfg) in
  let base api img_key date_key img_url :=
    Self cfg news_type SAVED_NEWS_DIR (cfg_groups cfg) (cfg_push_time cfg)
         api img_key date_key img_url (cfg_is_debug cfg) in
  if String.eqb news_type "vikiboss_api" then
    base (Some (cfg_vikiboss_api cfg)) None None None
  else if String.eqb news_type "indirect" then
    base (Some (cfg_indirect cfg)) (Some (cfg_img_key cfg)) (Some (cfg_date_key cfg)) None
  else if String.eqb news_type "direct" then
    base None None None (Some (cfg_direct cfg))
  else base None None None None.

(** Reading [self.<name>]. *)
Definition getattr {A} (name : string) (field : option A) : M A :=
  match field with
  | Some v => ret v
  | None =>
    raise (AttributeError
             ("'Daily60sNewsPlugin' object has no attribute '" +:+ name +:+ "'"))
  end.

(** How the body of a loop iteration ended: with a [return], or by
    reaching its end. *)
Inductive flow (A : Type) : Type :=
| Returned (a : A)
| Next.
Arguments Returned {A} a.
Arguments Next {A}.

(** [for x in l: body x], for a body that never [return]s. *)
Fixpoint for_each {A} (body : A -> M unit) (l : list A) : M unit :=
  match l with
  | [] => ret tt
  | x :: l' => body x ;;; for_each body l'
  end.

(** [range(n)] *)
Definition range (n : Z) : list Z := map Z.of_nat (seq 0 (Z.to_nat n)).

(** [a, b = v] for a [v] that is a pair or [None]. *)
Definition unpack2 {A B} (v : option (A * B)) : M (A * B) :=
  match v with
  | Some p => ret p
  | None => raise (TypeError "cannot unpack non-iterable NoneType object")
  end.

Section WithEnv.
Variable E : env.

(** [_get_news_file_path] *)
Definition _get_news_file_path (self : plugin) : M (string * string) :=
  let* now := datetime_now E in
  let current_date := strftime_Ymd EmptyString now in
  let name := current_date +:+ ".jpeg" in
  let path := os_path_join (news_path self) name in
  logger_info (LogPath path) ;;;
  ret (path, name).

(** The three branches of the [try] suite of [_download_news]. *)
Definition suite_vikiboss_api (path date : string) (timeout : Z)
  : M (flow (string * bool)) :=
  let url := "https://60s-api.viki.moe/v2/60s?date=" +:+ date
             +:+ "&encoding=image-proxy" in
  logger_info (LogStartDownload url) ;;;
  let* response := session_get E url timeout in
  if status response =? 200 then
    let* content := lift (read response) in
    write_file E path content ;;;
    ret (Returned (path, true))
  else raise (Exception ("API返回错误代码: " +:+ pretty (status response))).

Definition suite_indirect (self : plugin) (path : string) (timeout : Z)
  : M (flow (string * bool)) :=
  let* url := getattr "api" (api self) in
  logger_info (LogStartFetch url) ;;;
  let* response := session_get E url timeout in
  if status response =? 200 then
    let* data := lift (json response) in
    let* code := lift (dict_get "code" JNull data) in
    if eq_200 code then
      let* image_url := lift (dict_get "imageUrl" JNull data) in
      if negb (truthy image_url) then
        raise (Exception "响应中未找到imageUrl字段")
      else
        logger_info (LogStartImage (py_str image_url)) ;;;
        let* image_url :=
          match image_url with
          | JStr u => ret u
          | _ => raise (TypeError "url should be str")
          end in
        let* img_response := session_get E image_url timeout in
        if status img_response =? 200 then
          let* img_content := lift (read img_response) in
          write_file E path img_content ;;;
          ret (Returned (path, true))
        else raise (Exception ("图片下载失败: HTTP "
                               +:+ pretty (status img_response)))
    else
      let* msg := lift (dict_get "msg" (JStr "未知错误") data) in
      raise (Exception ("API返回错误: " +:+ py_str msg))
  else raise (Exception ("API请求失败: HTTP " +:+ pretty (status response))).

Definition suite_direct (self : plugin) (path : string) (timeout : Z)
  : M (flow (string * bool)) :=
  let* url := getattr "img_url" (img_url self) in
  logger_info (LogStartDownload url) ;;;
  let* response := session_get E url timeout in
  if status response =? 200 then
    let* content := lift (read response) in
    write_file E path content ;;;
    ret (Returned (path, true))
  else raise (Exception ("API返回错误代码: " +:+ pretty (status response))).

(** The [try] suite of one iteration of the loop of [_download_news]. *)
Definition download_attempt (self : plugin) (path date : string) (timeout : Z)
  : M (flow (string * bool)) :=
  if String.eqb (news_type self) "vikiboss_api" then
    suite_vikiboss_api path date timeout
  else if String.eqb (news_type self) "indirect" then
    suite_indirect self path timeout
  else if String.eqb (news_type self) "direct" then
    suite_direct self path timeout
  else ret Next.

(** The [except Exception as e] suite of that loop. *)
Definition download_except (attempt retries : Z) (e : exn)
  : M (flow (string * bool)) :=
  logger_error (LogRetry (attempt + 1) retries e) ;;;
  if attempt =? retries - 1 then
    logger_error (LogGiveUp e) ;;;
    let content := "接口报错，请联系管理员:" +:+ exn_str e in
    ret (Returned (content, false))
  else
    asyncio_sleep (seconds 1) ;;;
    ret Next.

(** [for attempt in attempts: try: ... except ...], then [return None] *)
Fixpoint download_loop (self : plugin) (path date : string)
         (retries timeout : Z) (attempts : list Z)
  : M (option (string * bool)) :=
  match attempts with
  | [] => ret None
  | attempt :: rest =>
    let* fl := try_except (download_attempt self path date timeout)
                          (download_except attempt retries) in
    match fl with
    | Returned r => ret (Some r)
    | Next => download_loop self path date retries timeout rest
    end
  end.

(** [_download_news] *)
Definition _download_news (self : plugin) (path : string)
  : M (option (string * bool)) :=
  let retries := 3 in
  let timeout := 5 in
  let* now := datetime_now E in
  let date := strftime_Ymd "-" now in
  download_loop self path date retries timeout (range retries).

(** [_get_image_news] *)
Definition _get_image_news (self : plugin) : M (option (string * bool)) :=
  let* '(path, _) := _get_news_file_path self in
  let* found := os_path_exists path in
  if found then ret (Some (path, true))
  else _download_news self path.

(** [_update_news_files] *)
Definition _update_news_files (self : plugin) : M unit :=
  logger_info LogForceUpdate ;;;
  let* '(image_path, _) := _get_news_file_path self in
  _download_news self image_path ;;;
  ret tt.

(** The body of the loop of [_send_daily_news_to_groups], for one
    target. *)
Definition push_to_target (self : plugin) (target : string) : M unit :=
  try_except
    (let* got := _get_image_news self in
     let* '(news_path, _) := unpack2 got in
     let message_chain := Chain "每日新闻播报：" news_path in
     logger_info (LogPushImage news_path) ;;;
     send_message E target message_chain ;;;
     logger_info (LogPushed target) ;;;
     asyncio_sleep (seconds 2))
    (fun e =>
       let error_message :=
         match exn_str e with EmptyString => "未知错误" | s => s end in
       logger_error (LogPushFailed error_message) ;;;
       logger_error LogDetail ;;;
       asyncio_sleep (seconds 2)).

(** [_send_daily_news_to_groups] *)
Definition _send_daily_news_to_groups (self : plugin) : M unit :=
  for_each (push_to_target self) (cfg_groups (self_config self)).

(** [hour, minute = map(int, parts)] *)
Definition unpack_hour_minute (parts : list string) : pyres (Z * Z) :=
  match parts with
  | [] => Raise (ValueError "not enough values to unpack (expected 2, got 0)")
  | a :: rest =>
    match int a with
    | Raise e => Raise e
    | Ok hour =>
      match rest with
      | [] => Raise (ValueError "not enough values to unpack (expected 2, got 1)")
      | b :: rest' =>
        match int b with
        | Raise e => Raise e
        | Ok minute =>
          match rest' with
          | [] => Ok (hour, minute)
          | c :: _ =>
            match int c with
            | Raise e => Raise e
            | Ok _ => Raise (ValueError "too many values to unpack (expected 2)")
            end
          end
        end
      end
    end
  end.

(** [_calculate_sleep_time], from the reading [now] of the clock on. *)
Definition sleep_time_from (push_time : string) (now : datetime) : pyres timedelta :=
  match unpack_hour_minute (split ":" push_time) with
  | Raise e => Raise e
  | Ok (hour, minute) =>
    match dt_replace_hm00 now hour minute with
    | Raise e => Raise e
    | Ok next_push =>
      if dt_le next_push now then
        match dt_add next_push (td_days 1) with
        | Raise e => Raise e
        | Ok next_push' => Ok (dt_sub next_push' now)
        end
      else Ok (dt_sub next_push now)
    end
  end.

(** [_calculate_sleep_time] *)
Definition _calculate_sleep_time (self : plugin) : M timedelta :=
  let* now := datetime_now E in
  lift (sleep_time_from (push_time self) now).

(** The body of the loop of [_delete_expired_news_files]. *)
Definition delete_if_expired (self : plugin) (save_days : Z) (filename : string)
  : M unit :=
  try_except
    (let* file_date := lift (strptime_Ymd (take 8 filename)) in
     let* today := date_today E in
     if today - file_date >=? save_days then
       let file_path := os_path_join (news_path self) filename in
       os_remove E file_path
     else ret tt)
    (fun _ => ret tt).

(** [_delete_expired_news_files] *)
Definition _delete_expired_news_files (self : plugin) : M unit :=
  let save_days := cfg_save_days (self_config self) in
  if save_days <=? 0 then raise (ValueError "保存天数不能小于0")
  else
    let* filenames := os_listdir (news_path self) in
    for_each (delete_if_expired self save_days) filenames.

(** One pass through the [while True] of [_daily_task]. *)
Definition daily_cycle (self : plugin) : M unit :=
  try_except
    (let* sleep_time := _calculate_sleep_time self in
     logger_info (LogNextPush sleep_time) ;;;
     asyncio_sleep sleep_time ;;;
     _update_news_files self ;;;
     _delete_expired_news_files self ;;;
     _send_daily_news_to_groups self ;;;
     asyncio_sleep (seconds 60))
    (fun e =>
       logger_error (LogTaskError e) ;;;
       print_exc e ;;;
       asyncio_sleep (seconds 300)).

(** [_daily_task], cut after [n] passes: the loop has no exit of its
    own, so a run is observed through its finite prefixes. *)
Fixpoint _daily_task (self : plugin) (n : nat) : M unit :=
  match n with
  | O => ret tt
  | S n' => daily_cycle self ;;; _daily_task self n'
  end.

(** The command handlers, each returning what it yields. *)

(** [clean_news] *)
Definition clean_news (self : plugin) (sender_name : string) : M string :=
  _delete_expired_news_files self ;;;
  ret (sender_name +:+ ": 过期(" +:+ pretty (cfg_save_days (self_config self))
       +:+ "前)新闻文件已清理。").

(** [push_news] *)
Definition push_news (self : plugin) (sender_name : string) : M string :=
  _send_daily_news_to_groups self ;;;
  ret (sender_name +:+ ":已成功向群组推送新闻").

(** [push_image_news] (and [daily_60s_news], which has the same body) *)
Definition push_image_news (self : plugin) : M string :=
  let* got := _get_image_news self in
  let* '(news_path, _) := unpack2 got in
  ret news_path.

(** [update_news_files] *)
Definition update_news_files (self : plugin) (sender_name : string) : M string :=
  _update_news_files self ;;;
  ret (sender_name +:+ ":今日新闻文件已更新...").

End WithEnv.

End Plugin.

(* ===================================================================== *)
(** ** Concrete configurations and environments                            *)
(* ===================================================================== *)

Module Examples.
Import Calendar DateTime Json Runtime Plugin.

(** Wednesday 2024-01-10, 08:00:01. *)
Definition jan10_080001 : datetime := DT (_ymd2ord 2024 1 10) 8 0 1 0.

Definition config_of (mode : string) (save_days : Z) : config :=
  Config (Some mode) ["group_a"; "group_b"] "08:00"
         "https://60s-api.viki.moe" "http://api.example/news" "url" "day"
         "http://img.example/today.jpeg" false save_days.

(** The same configuration with another [push_time]. *)
Definition config_at (push_time : string) (save_days : Z) : config :=
  Config (Some "direct") ["group_a"; "group_b"] push_time
         "https://60s-api.viki.moe" "http://api.example/news" "url" "day"
         "http://img.example/today.jpeg" false save_days.

Definition no_json : pyres json_doc := Raise (Exn "ContentTypeError" "unexpected mimetype").

(** Every request is answered [200] with the body [IMG]; every file
    operation and every send succeeds. *)
Definition calm : env :=
  Env (fun _ => jan10_080001)
      (fun _ _ => Ok (Response 200 (Ok "IMG") no_json))
      (fun _ _ => Written)
      (fun _ => None)
      (fun _ _ _ => None).

Definition empty_world : world := World 0 ∅.

(** The server answers [500] to the first two requests of a run that
    starts at tick 0 (the clock is read first), then [200]. *)
Definition flaky : env :=
  Env (fun _ => jan10_080001)
      (fun n _ => if (n <? 3)%nat then Ok (Response 500 (Ok EmptyString) no_json)
                  else Ok (Response 200 (Ok "IMG") no_json))
      (fun _ _ => Written)
      (fun _ => None)
      (fun _ _ _ => None).

(** The server answers [500] to everything. *)
Definition down : env :=
  Env (fun _ => jan10_080001)
      (fun _ _ => Ok (Response 500 (Ok EmptyString) no_json))
      (fun _ _ => Written)
      (fun _ => None)
      (fun _ _ _ => None).

(** A server that answers every request with the JSON object [fields]
    and the body [IMG]. *)
Definition answering (fields : gmap string jval) : env :=
  Env (fun _ => jan10_080001)
      (fun _ _ => Ok (Response 200 (Ok "IMG") (Ok (JsonObject fields))))
      (fun _ _ => Written)
      (fun _ => None)
      (fun _ _ _ => None).


(** [{code: 200, imageUrl: "http://x/y.jpg"}] *)
Definition fields_ok : gmap string jval :=
  {[ "code" := JInt 200; "imageUrl" := JStr "http://x/y.jpg" ]}.

(** [{code: 500, msg: "bad"}] *)
Definition fields_bad : gmap string jval :=
  {[ "code" := JInt 500; "msg" := JStr "bad" ]}.

(** [{code: 200, url: "http://x/y.jpg"}]: the image URL under the key
    that [config_of] sets as [img_key]. *)
Definition fields_configured_key : gmap string jval :=
  {[ "code" := JInt 200; "url" := JStr "http://x/y.jpg" ]}.

Definition today_path : string := SAVED_NEWS_DIR +:+ "/20240110.jpeg".

(** A cache with a file eight days old, one three days old, and one
    that carries no date. *)
Definition old_cache : world :=
  World 0 (list_to_map [(SAVED_NEWS_DIR +:+ "/20240102.jpeg", "a");
                        (SAVED_NEWS_DIR +:+ "/20240107.jpeg", "b");
                        (SAVED_NEWS_DIR +:+ "/notes.txt", "c")]).

(** The system refuses to unlink the eight-day-old file. *)
Definition read_only : env :=
  Env (fun _ => jan10_080001)
      (fun _ _ => Ok (Response 200 (Ok "IMG") no_json))
      (fun _ _ => Written)
      (fun p => if String.eqb p (SAVED_NEWS_DIR +:+ "/20240102.jpeg")
                then Some (Exn "PermissionError" p) else None)
      (fun _ _ _ => None).

(** The host fails to deliver to [group_a]. *)
Definition group_a_unreachable : env :=
  Env (fun _ => jan10_080001)
      (fun _ _ => Ok (Response 200 (Ok "IMG") no_json))
      (fun _ _ => Written)
      (fun _ => None)
      (fun _ target _ => if String.eqb target "group_a"
                         then Some (Exn "Exception" "send failed") else None).

(** Today's image is already in the cache. *)
Definition warm_cache : world :=
  World 0 {[ today_path := "IMG" ]}.

End Examples.

(* ===================================================================== *)
(** ** What a run shows: projections of traces and of the cache            *)
(* ===================================================================== *)

Module Observations.
Import Calendar DateTime PyStr Strptime Json Runtime Plugin.

(** The durations slept, in order. *)
Definition sleeps (t : list event) : list timedelta :=
  omap (fun ev => match ev with EvSleep d => Some d | _ => None end) t.

(** The URLs requested, in order. *)
Definition requests (t : list event) : list string :=
  omap (fun ev => match ev with EvGet url _ => Some url | _ => None end) t.

(** The targets of [send_message], in order. *)
Definition sends (t : list event) : list string :=
  omap (fun ev => match ev with EvSend target _ => Some target | _ => None end) t.

(** The paths handed to [os.remove], in order. *)
Definition removals (t : list event) : list string :=
  omap (fun ev => match ev with EvRemove path => Some path | _ => None end) t.

(** The first log record of the [try] suite of [_download_news] marks
    the start of an attempt. *)
Definition is_attempt_start (ev : event) : bool :=
  match ev with
  | EvLog INFO (LogStartDownload _) | EvLog INFO (LogStartFetch _) => true
  | _ => false
  end.

Definition attempts (t : list event) : nat :=
  length (List.filter is_attempt_start t).

(** The [(attempt + 1, retries)] of the failure records, in order: one
    per attempt that raised. *)
Definition failures (t : list event) : list (Z * Z) :=
  omap (fun ev => match ev with
                  | EvLog ERROR (LogRetry k n _) => Some (k, n)
                  | _ => None
                  end) t.

(** The file named [name] is at least [save_days] whole days old on
    [today], by the date that the first eight bytes of its name
    spell in ASCII. *)
Definition expired (today : date) (save_days : Z) (name : string) : bool :=
  match strptime_Ymd (take 8 name) with
  | Ok file_date => today - file_date >=? save_days
  | Raise _ => false
  end.

(** [path] is an expired file of [dir] that the system lets go. *)
Definition swept (E : env) (dir : string) (today : date) (save_days : Z)
           (path : string) : bool :=
  match entry_of dir path with
  | Some name =>
    expired today save_days name
    && match env_remove E path with None => true | Some _ => false end
  | None => false
  end.

(** The name [_get_news_file_path] gives the cache file of day [d]. *)
Definition news_file_name (d : date) : string :=
  strftime_Ymd EmptyString (DT d 0 0 0 0) +:+ ".jpeg".

(** [name] begins with four ASCII decimal digits. *)
Definition starts_with_year (name : string) : bool :=
  match name with
  | String a (String b (String c (String d _))) =>
    is_digit a && is_digit b && is_digit c && is_digit d
  | _ => false
  end.

(** The three source modes the constructor knows. *)
Definition is_known_type (nt : string) : bool :=
  String.eqb nt "vikiboss_api" || String.eqb nt "indirect" || String.eqb nt "direct".

(** A [push_time] that [_calculate_sleep_time] accepts: it splits at
    the colons into exactly two fields that [int] reads, the first an
    hour of the day and the second a minute of the hour.  This is
    what the code accepts on ASCII text of at most
    [default_max_str_digits] characters. *)
Definition push_time_ok (pt : string) : bool :=
  match unpack_hour_minute (split ":" pt) with
  | Ok (hour, minute) =>
    (0 <=? hour) && (hour <=? 23) && (0 <=? minute) && (minute <=? 59)
  | Raise _ => false
  end.

(** What one failed pass of [_daily_task] leaves in the trace. *)
Definition recovery (e : exn) : list event :=
  [EvLog ERROR (LogTaskError e); EvPrintExc e; EvSleep (seconds 300)].

(** The world after [n] more readings of the clock. *)
Definition later (n : nat) (w : world) : world :=
  World (n + w_tick w) (w_fs w).

(** [m] returns normally from every world. *)
Definition never_raises {A} (m : M A) : Prop :=
  forall w, exists a w' t, m w = (Ok a, w', t).

(** The events of one pass of the loop of [_send_daily_news_to_groups]
    for [target].  Either the image was sent and the pass ended with
    the pause, or something raised, before or in [send_message], and
    the pass logged it and ended with the same pause.  What precedes is
    the work of [_get_image_news], which pauses one second at a time
    and sends nothing. *)
Definition delivered (target : string) (seg : list event) : Prop :=
  exists pre path,
    seg = pre ++ [EvLog INFO (LogPushImage path);
                  EvSend target (Chain "每日新闻播报：" path);
                  EvLog INFO (LogPushed target);
                  EvSleep (seconds 2)]
    /\ sends pre = [] /\ Forall (eq (seconds 1)) (sleeps pre).

Definition failed_then_paused (target : string) (seg : list event) : Prop :=
  exists pre msg,
    seg = pre ++ [EvLog ERROR (LogPushFailed msg);
                  EvLog ERROR LogDetail;
                  EvSleep (seconds 2)]
    /\ (sends pre = [] \/ sends pre = [target])
    /\ Forall (eq (seconds 1)) (sleeps pre).

Definition visited (target : string) (seg : list event) : Prop :=
  delivered target seg \/ failed_then_paused target seg.

End Observations.

(* ===================================================================== *)
(** ** Facts about datetimes                                               *)
(* ===================================================================== *)

Module DateTimeFacts.
Import Calendar DateTime.

Lemma time_of_day_bounds h m s us :
  0 <= h < 24 -> 0 <= m < 60 -> 0 <= s < 60 -> 0 <= us < 1000000 ->
  0 <= ((h * 60 + m) * 60 + s) * US_PER_SECOND + us < US_PER_DAY.
Proof. unfold US_PER_DAY, US_PER_SECOND. lia. Qed.

(** The field-wise order is the order of the instants. *)
Lemma dt_le_micros a b :
  dt_valid a -> dt_valid b ->
  dt_le a b = (dt_micros a <=? dt_micros b).
Proof.
  intros (Ha0 & Ha1 & Ha2 & Ha3 & Ha4) (Hb0 & Hb1 & Hb2 & Hb3 & Hb4).
  unfold dt_le, dt_cmp, dt_micros, US_PER_DAY, US_PER_SECOND.
  destruct a as [ad ah am asx au], b as [bd bh bm bs bu]; simpl in *.
  symmetry.
  destruct (Z.compare_spec ad bd);
    [destruct (Z.compare_spec ah bh);
     [destruct (Z.compare_spec am bm);
      [destruct (Z.compare_spec asx bs);
       [destruct (Z.compare_spec au bu)|..]|..]|..]|..];
    first [apply Z.leb_le; lia | apply Z.leb_gt; lia].
Qed.

(** [dt_add] adds instants: whatever it returns lies [td] later. *)
Lemma dt_add_micros d td d' :
  dt_add d td = Ok d' -> dt_micros d' = dt_micros d + td.
Proof.
  unfold dt_add.
  set (total := dt_micros d + td).
  destruct (_ && _); [|discriminate].
  intros [= <-]. unfold dt_micros at 1; simpl.
  unfold US_PER_DAY, US_PER_SECOND in *.
  pose proof (Z.div_mod total (86400 * 1000000) ltac:(lia)) as H1.
  set (rem := total mod (86400 * 1000000)) in *.
  pose proof (Z.div_mod rem 1000000 ltac:(lia)) as H2.
  set (secs := rem / 1000000) in *.
  pose proof (Z.div_mod secs 3600 ltac:(lia)) as H3.
  pose proof (Z.div_mod (secs mod 3600) 60 ltac:(lia)) as H4.
  lia.
Qed.

(** Adding one day to a time of day of a date before [date.max]. *)
Lemma dt_add_one_day day h m :
  1 <= day < _MAXORDINAL -> 0 <= h < 24 -> 0 <= m < 60 ->
  exists d', dt_add (DT day h m 0 0) (td_days 1) = Ok d'.
Proof.
  intros Hd Hh Hm. unfold dt_add.
  set (total := dt_micros (DT day h m 0 0) + td_days 1).
  assert (Hdays : total / US_PER_DAY = day + 1).
  { subst total. unfold dt_micros, td_days; simpl.
    pose proof (time_of_day_bounds h m 0 0 Hh Hm ltac:(lia) ltac:(lia)) as Hb.
    unfold US_PER_DAY, US_PER_SECOND in *.
    symmetry. apply (Z.div_unique _ _ _ ((h * 60 + m) * 60 * 1000000)); lia. }
  rewrite Hdays.
  assert ((0 <? day + 1) && (day + 1 <=? _MAXORDINAL) = true) as ->.
  { apply andb_true_intro; split; [apply Z.ltb_lt | apply Z.leb_le]; lia. }
  eauto.
Qed.

(** The two calendar conversions agree on sample dates, leap days and
    both ends of the range. *)
Example ord2ymd_samples :
  _ord2ymd (_ymd2ord 2024 2 29) = (2024, 2, 29)
  /\ _ord2ymd (_ymd2ord 2023 12 31) = (2023, 12, 31)
  /\ _ord2ymd (_ymd2ord 2000 3 1) = (2000, 3, 1)
  /\ _ord2ymd (_ymd2ord 1900 2 28) = (1900, 2, 28)
  /\ _ord2ymd 1 = (1, 1, 1)
  /\ _ord2ymd _MAXORDINAL = (9999, 12, 31)
  /\ _ymd2ord 9999 12 31 = _MAXORDINAL.
Proof. vm_compute. repeat split; reflexivity. Qed.

End DateTimeFacts.

(* ===================================================================== *)
(** ** The scheduler's sleep computation                                   *)
(* ===================================================================== *)

Module SchedulerFacts.
Import Calendar DateTime PyStr Runtime Plugin DateTimeFacts Examples.

(** The computation on a parsed push time. *)
Lemma sleep_time_from_parsed pt now hour minute :
  unpack_hour_minute (split ":" pt) = Ok (hour, minute) ->
  0 <= hour < 24 -> 0 <= minute < 60 ->
  dt_valid now -> dt_date now < _MAXORDINAL ->
  exists d,
    sleep_time_from pt now = Ok d /\
    (dt_micros now < dt_micros (DT (dt_date now) hour minute 0 0) ->
     dt_micros now + d = dt_micros (DT (dt_date now) hour minute 0 0)) /\
    (dt_micros (DT (dt_date now) hour minute 0 0) <= dt_micros now ->
     dt_micros now + d = dt_micros (DT (dt_date now + 1) hour minute 0 0)).
Proof.
  intros Hp Hh Hm Hv Hmax. unfold sleep_time_from. rewrite Hp.
  unfold dt_replace_hm00.
  assert ((0 <=? hour) && (hour <=? 23) = true) as ->
      by (apply andb_true_intro; split; apply Z.leb_le; lia).
  assert ((0 <=? minute) && (minute <=? 59) = true) as ->
      by (apply andb_true_intro; split; apply Z.leb_le; lia).
  simpl negb. cbv iota.
  set (today := DT (dt_date now) hour minute 0 0).
  assert (Hvt : dt_valid today).
  { destruct Hv as (? & _). unfold dt_valid, today; simpl. lia. }
  rewrite (dt_le_micros today now Hvt Hv).
  destruct (Z.leb_spec (dt_micros today) (dt_micros now)) as [Hle | Hgt].
  - destruct Hv as (Hd & _).
    destruct (dt_add_one_day (dt_date now) hour minute) as [d' Hadd]; try lia.
    fold today in Hadd. rewrite Hadd.
    exists (dt_sub d' now). split; [reflexivity|].
    apply dt_add_micros in Hadd. unfold dt_sub. rewrite Hadd.
    split; [lia|]. intros _.
    unfold today, dt_micros, td_days; simpl. lia.
  - exists (dt_sub today now). split; [reflexivity|].
    unfold dt_sub. split; intros; lia.
Qed.



Example push_0800_now_080001 :
  sleep_time_from "08:00" jan10_080001 = Ok (seconds 86399)
  /\ dt_add jan10_080001 (seconds 86399)
     = Ok (DT (_ymd2ord 2024 1 11) 8 0 0 0).
Proof. split; vm_compute; reflexivity. Qed.

(** On the last representable day, once the push time has passed,
    tomorrow does not exist and the computation raises. *)
Example sleep_time_on_last_day :
  sleep_time_from "08:00" (DT _MAXORDINAL 9 0 0 0)
  = Raise (OverflowError "date value out of range").
Proof. vm_compute. reflexivity. Qed.

(** A push time that does not parse is a [ValueError]. *)
Example sleep_time_bad_push_time :
  sleep_time_from "0800" jan10_080001
  = Raise (ValueError "not enough values to unpack (expected 2, got 1)")
  /\ sleep_time_from "25:00" jan10_080001
     = Raise (ValueError "hour must be in 0..23").
Proof. split; vm_compute; reflexivity. Qed.

End SchedulerFacts.

(* ===================================================================== *)
(** ** The retention sweep                                                 *)
(* ===================================================================== *)

Module CacheFacts.
Import Calendar DateTime PyStr Strptime Runtime Plugin Observations Examples.

Lemma append_assoc (a b c : string) : (a +:+ b) +:+ c = a +:+ b +:+ c.
Proof.
  induction a as [|x a IH]; [reflexivity|].
  change (String x ((a +:+ b) +:+ c) = String x (a +:+ b +:+ c)).
  now rewrite IH.
Qed.

Lemma strip_prefix_Some p s r : strip_prefix p s = Some r -> s = p +:+ r.
Proof.
  revert s; induction p as [|a p IH]; intros s; simpl.
  - now intros [= ->].
  - destruct s as [|b s]; [discriminate|].
    destruct (Ascii.eqb_spec a b) as [->|]; [|discriminate].
    intros H. now rewrite (IH _ H).
Qed.

Lemma strip_prefix_append p r : strip_prefix p (p +:+ r) = Some r.
Proof.
  induction p as [|a p IH]; simpl; [reflexivity|].
  now rewrite Ascii.eqb_refl.
Qed.

Lemma join_no_slash dir name :
  has_slash name = false -> os_path_join dir name = dir +:+ "/" +:+ name.
Proof.
  unfold os_path_join. destruct name as [|c name]; [reflexivity|].
  simpl. intros H. apply orb_false_elim in H as [H _].
  destruct c as [[] [] [] [] [] [] [] []]; try reflexivity; discriminate.
Qed.

(** A listed name is the name of the file at [dir/name], and back. *)
Lemma entry_of_join dir path name :
  entry_of dir path = Some name -> os_path_join dir name = path.
Proof.
  unfold entry_of.
  destruct (strip_prefix _ _) as [r|] eqn:Hs; [|discriminate].
  destruct (has_slash r) eqn:Hr; [discriminate|].
  intros [= <-]. apply strip_prefix_Some in Hs.
  rewrite join_no_slash by assumption. now rewrite Hs, append_assoc.
Qed.

Lemma elem_of_listdir dir fs name :
  name ∈ listdir dir fs <->
  exists path, is_Some (fs !! path) /\ entry_of dir path = Some name.
Proof.
  unfold listdir. rewrite list_elem_of_omap.
  split; intros (path & H1 & H2); exists path; split; try assumption.
  - now apply elem_of_dom, elem_of_elements.
  - now apply elem_of_elements, elem_of_dom.
Qed.

Section Sweep.
Variable E : env.
Variable self : plugin.
Variable today : date.
Variable save_days : Z.
(** The date does not change while the sweep runs. *)
Hypothesis clock : forall k, dt_date (env_now E k) = today.

(** One file: [os.remove] is called exactly when the name is expired,
    whatever it raises is swallowed, and the file goes when the call
    succeeds. *)
Lemma delete_if_expired_run name w :
  exists w',
    delete_if_expired E self save_days name w
    = (Ok tt, w',
       if expired today save_days name
       then [EvRemove (os_path_join (news_path self) name)] else [])
    /\ w_fs w'
       = if expired today save_days name
            && match env_remove E (os_path_join (news_path self) name) with
               | None => true | Some _ => false end
         then delete (os_path_join (news_path self) name) (w_fs w)
         else w_fs w.
Proof.
  unfold delete_if_expired, expired, try_except, bind, lift, date_today,
    datetime_now, ret.
  destruct (strptime_Ymd (take 8 name)) as [file_date|e]; simpl.
  2: { eexists; split; reflexivity. }
  rewrite clock.
  destruct (today - file_date >=? save_days); simpl.
  2: { eexists; split; reflexivity. }
  unfold os_remove; simpl.
  destruct (w_fs w !! _) eqn:Hl.
  - destruct (env_remove E _); simpl; eexists; split; reflexivity.
  - simpl. eexists; split; [reflexivity|]. simpl.
    destruct (env_remove E _); [reflexivity|].
    now rewrite delete_id.
Qed.

(** The loop over any list of names. *)
Lemma sweep_run names w :
  exists w',
    for_each (delete_if_expired E self save_days) names w
    = (Ok tt, w',
       map (fun name => EvRemove (os_path_join (news_path self) name))
           (List.filter (expired today save_days) names))
    /\ forall path,
        w_fs w' !! path
        = if existsb (fun name =>
                        String.eqb path (os_path_join (news_path self) name)
                        && expired today save_days name
                        && match env_remove E path with
                           | None => true | Some _ => false end) names
          then None else w_fs w !! path.
Proof.
  revert w; induction names as [|name names IH]; intros w; simpl.
  - eexists; split; [reflexivity|]. reflexivity.
  - unfold bind at 1.
    destruct (delete_if_expired_run name w) as (w1 & -> & Hfs1).
    destruct (IH w1) as (w2 & -> & Hfs2).
    exists w2. split.
    + destruct (expired today save_days name); reflexivity.
    + intros path. rewrite Hfs2, Hfs1.
      destruct (existsb _ names); [now rewrite orb_true_r|].
      rewrite orb_false_r.
      destruct (String.eqb_spec path (os_path_join (news_path self) name)) as [->|Hne]; simpl.
      * destruct (expired today save_days name); simpl; [|reflexivity].
        destruct (env_remove E _); [reflexivity|].
        apply lookup_delete_eq.
      * destruct (_ && _); [|reflexivity].
        now apply lookup_delete_ne.
Qed.

Lemma swept_existsb fs path :
  is_Some (fs !! path) ->
  existsb (fun name =>
             String.eqb path (os_path_join (news_path self) name)
             && expired today save_days name
             && match env_remove E path with
                | None => true | Some _ => false end) (listdir (news_path self) fs)
  = swept E (news_path self) today save_days path.
Proof.
  intros Hin. unfold swept.
  apply eq_true_iff_eq. rewrite existsb_exists. split.
  - intros (name & Hname & Hb).
    apply andb_prop in Hb as [Hb Hrm]. apply andb_prop in Hb as [Heq Hexp].
    apply String.eqb_eq in Heq.
    apply list_elem_of_In, elem_of_listdir in Hname as (path' & _ & Hentry).
    pose proof (entry_of_join _ _ _ Hentry) as Hj.
    rewrite Heq, Hj, Hentry, Hexp. simpl.
    rewrite Heq, Hj in Hrm. exact Hrm.
  - destruct (entry_of (news_path self) path) as [name|] eqn:Hentry; [|discriminate].
    intros Hb. exists name. split.
    + apply list_elem_of_In, elem_of_listdir. eauto.
    + rewrite (entry_of_join _ _ _ Hentry), String.eqb_refl. exact Hb.
Qed.

Lemma listed_entry fs name :
  name ∈ listdir (news_path self) fs ->
  is_Some (fs !! os_path_join (news_path self) name)
  /\ entry_of (news_path self) (os_path_join (news_path self) name) = Some name.
Proof.
  intros (path & Hin & Hentry)%elem_of_listdir.
  now rewrite (entry_of_join _ _ _ Hentry).
Qed.

(** C2.  With a positive [save_days] and a cache directory whose
    file names are ASCII in the eight bytes that [filename[:8]]
    reads, [_delete_expired_news_files] never raises; it calls
    [os.remove] on exactly the listed files whose leading date is
    at least [save_days] whole days before today, in listing order,
    so a failing removal does not stop the later ones; a listed
    file is gone afterwards exactly when it is such a file and its
    removal succeeded; a listed file whose name does not parse as a
    date is still there; every file that is not removed keeps its
    content.  The condition on the names is where the byte strings
    of this development are Python's strings: a name written with
    the digits of another script is read by [strptime] as a date
    too, and is outside this statement. *)
Theorem delete_expired_news_files_sweeps w :
  0 < cfg_save_days (self_config self) ->
  cfg_save_days (self_config self) = save_days ->
  forallb (fun name => isascii (take 8 name)) (listdir (news_path self) (w_fs w)) = true ->
  exists w',
    _delete_expired_news_files E self w
    = (Ok tt, w',
       map (fun name => EvRemove (os_path_join (news_path self) name))
           (List.filter (expired today save_days) (listdir (news_path self) (w_fs w))))
    /\ (forall path,
          w_fs w' !! path
          = if swept E (news_path self) today save_days path then None else w_fs w !! path)
    /\ (forall name,
          name ∈ listdir (news_path self) (w_fs w) ->
          (w_fs w' !! os_path_join (news_path self) name = None
           <-> expired today save_days name = true
               /\ env_remove E (os_path_join (news_path self) name) = None))
    /\ (forall name e,
          name ∈ listdir (news_path self) (w_fs w) ->
          strptime_Ymd (take 8 name) = Raise e ->
          w_fs w' !! os_path_join (news_path self) name = w_fs w !! os_path_join (news_path self) name
          /\ is_Some (w_fs w' !! os_path_join (news_path self) name)).
Proof.
  intros Hpos Hsd _. unfold _delete_expired_news_files.
  rewrite Hsd in *.
  destruct (Z.leb_spec save_days 0) as [Hle|_]; [lia|].
  unfold bind at 1, os_listdir.
  destruct (sweep_run (listdir (news_path self) (w_fs w)) w) as (w' & -> & Hfs).
  assert (Hall : forall path,
             w_fs w' !! path
             = if swept E (news_path self) today save_days path then None else w_fs w !! path).
  { intros path. rewrite Hfs.
    destruct (w_fs w !! path) eqn:Hl.
    - rewrite swept_existsb by (rewrite Hl; eauto). reflexivity.
    - destruct (existsb _ _), (swept _ _ _ _ _); reflexivity. }
  exists w'. split; [reflexivity|]. split; [exact Hall|]. split.
  - intros name Hname. apply listed_entry in Hname as [[x Hx] Hentry].
    rewrite Hall. unfold swept. rewrite Hentry, Hx.
    destruct (expired today save_days name); simpl.
    + destruct (env_remove E _); split; try tauto; try discriminate.
      intros [_ ?]; discriminate.
    + split; [discriminate | intros [? _]; discriminate].
  - intros name e Hname Hparse. apply listed_entry in Hname as [Hx Hentry].
    assert (Heq : w_fs w' !! os_path_join (news_path self) name = w_fs w !! os_path_join (news_path self) name).
    { rewrite Hall. unfold swept, expired. now rewrite Hentry, Hparse. }
    split; [exact Heq | now rewrite Heq].
Qed.

End Sweep.

(** With [save_days = 7] on 2024-01-10, of the files dated 2024-01-02,
    2024-01-07 and the undated one only the first is removed. *)
Lemma delete_expired_news_files_sweeps_witness :
  (0 < 7 /\ cfg_save_days (self_config (__init__ (config_of "direct" 7))) = 7
   /\ forallb (fun name => isascii (take 8 name))
              (listdir (news_path (__init__ (config_of "direct" 7))) (w_fs old_cache))
      = true)
  /\ exists w',
      _delete_expired_news_files calm (__init__ (config_of "direct" 7)) old_cache
      = (Ok tt, w',
         map (fun name =>
                EvRemove (os_path_join (news_path (__init__ (config_of "direct" 7))) name))
             (List.filter (expired (_ymd2ord 2024 1 10) 7)
                          (listdir (news_path (__init__ (config_of "direct" 7)))
                                   (w_fs old_cache))))
      /\ (forall path,
            w_fs w' !! path
            = if swept calm (news_path (__init__ (config_of "direct" 7)))
                       (_ymd2ord 2024 1 10) 7 path
              then None else w_fs old_cache !! path)
      /\ (forall name,
            name ∈ listdir (news_path (__init__ (config_of "direct" 7))) (w_fs old_cache) ->
            (w_fs w' !! os_path_join (news_path (__init__ (config_of "direct" 7))) name = None
             <-> expired (_ymd2ord 2024 1 10) 7 name = true
                 /\ env_remove calm
                      (os_path_join (news_path (__init__ (config_of "direct" 7))) name)
                    = None))
      /\ (forall name e,
            name ∈ listdir (news_path (__init__ (config_of "direct" 7))) (w_fs old_cache) ->
            strptime_Ymd (take 8 name) = Raise e ->
            w_fs w' !! os_path_join (news_path (__init__ (config_of "direct" 7))) name
            = w_fs old_cache !! os_path_join (news_path (__init__ (config_of "direct" 7))) name
            /\ is_Some (w_fs w'
                        !! os_path_join (news_path (__init__ (config_of "direct" 7))) name)).
Proof.
  split; [split; [lia | split; [reflexivity | vm_compute; reflexivity]]|].
  apply (delete_expired_news_files_sweeps calm (__init__ (config_of "direct" 7))
           (_ymd2ord 2024 1 10) 7).
  - intros k. reflexivity.
  - reflexivity.
  - reflexivity.
  - vm_compute; reflexivity.
Defined.

Example sweep_scenario :
  let '(r, w', t) :=
    _delete_expired_news_files calm (__init__ (config_of "direct" 7)) old_cache in
  r = Ok tt
  /\ removals t = [SAVED_NEWS_DIR +:+ "/20240102.jpeg"]
  /\ w_fs w' !! (SAVED_NEWS_DIR +:+ "/20240102.jpeg") = None
  /\ w_fs w' !! (SAVED_NEWS_DIR +:+ "/20240107.jpeg") = Some "b"
  /\ w_fs w' !! (SAVED_NEWS_DIR +:+ "/notes.txt") = Some "c".
Proof. vm_compute. repeat split; reflexivity. Qed.

(** A removal that fails is swallowed and the file stays. *)
Example sweep_swallows_errors :
  let '(r, w', t) :=
    _delete_expired_news_files read_only (__init__ (config_of "direct" 1)) old_cache in
  r = Ok tt
  /\ removals t = [SAVED_NEWS_DIR +:+ "/20240107.jpeg"; SAVED_NEWS_DIR +:+ "/20240102.jpeg"]
  /\ w_fs w' !! (SAVED_NEWS_DIR +:+ "/20240102.jpeg") = Some "a"
  /\ w_fs w' !! (SAVED_NEWS_DIR +:+ "/20240107.jpeg") = None.
Proof. vm_compute. repeat split; reflexivity. Qed.

End CacheFacts.

(* ===================================================================== *)
(** ** The retrying downloader                                             *)
(* ===================================================================== *)

Module DownloaderFacts.
Import Calendar DateTime PyStr Json Runtime Plugin Observations Examples.
Local Open Scope py_scope.

Lemma attempts_app t1 t2 : attempts (t1 ++ t2) = (attempts t1 + attempts t2)%nat.
Proof. unfold attempts. now rewrite List.filter_app, length_app. Qed.

Lemma sleeps_app t1 t2 : sleeps (t1 ++ t2) = sleeps t1 ++ sleeps t2.
Proof. apply omap_app. Qed.


Lemma requests_app t1 t2 : requests (t1 ++ t2) = requests t1 ++ requests t2.
Proof. apply omap_app. Qed.

Ltac unfold_run :=
  cbv beta iota zeta delta
      [suite_vikiboss_api suite_indirect suite_direct
       bind try_except lift ret raise emit logger_info logger_error
       asyncio_sleep print_exc session_get write_file getattr dict_get
       datetime_now os_path_exists unpack2 send_message] in *.

Lemma news_type_init cfg :
  news_type (__init__ cfg) = default "indirect" (cfg_news_type cfg).
Proof. unfold __init__. repeat case_match; reflexivity. Qed.

(** The three branches of [__init__] and of [download_attempt] test the
    same string. *)
Lemma known_type_cases nt :
  is_known_type nt = true ->
  String.eqb nt "vikiboss_api" = true
  \/ (String.eqb nt "vikiboss_api" = false /\ String.eqb nt "indirect" = true)
  \/ (String.eqb nt "vikiboss_api" = false /\ String.eqb nt "indirect" = false
      /\ String.eqb nt "direct" = true).
Proof.
  unfold is_known_type.
  destruct (String.eqb nt "vikiboss_api"), (String.eqb nt "indirect"),
    (String.eqb nt "direct"); simpl; intros; try discriminate; tauto.
Qed.

Ltac finish_attempt :=
  do 3 eexists; split; [reflexivity|];
  cbn [attempts sleeps failures omap List.filter is_attempt_start length app];
  do 3 (split; [reflexivity|]); split; [discriminate|];
  let x := fresh "x" in let Hx := fresh "Hx" in
  intros x Hx;
  first [ discriminate Hx
        | injection Hx as <-;
          split; [reflexivity|]; eexists; split; [reflexivity | apply lookup_insert_eq] ].

(** One attempt in a known mode: it starts with its log record, sleeps
    nowhere, logs no failure, and ends in a [return] of [(path, True)]
    right after writing the file, or in an exception. *)
Lemma attempt_shape E cfg path date timeout w :
  is_known_type (news_type (__init__ cfg)) = true ->
  exists r w' t,
    download_attempt E (__init__ cfg) path date timeout w = (r, w', t)
    /\ attempts t = 1%nat /\ sleeps t = [] /\ failures t = []
    /\ r <> Ok Next
    /\ (forall x, r = Ok (Returned x) ->
          x = (path, true)
          /\ exists content,
              last t = Some (EvWrite path content)
              /\ w_fs w' !! path = Some content).
Proof.
  intros Hk.
  pose proof (news_type_init cfg) as Hnt.
  rewrite Hnt in Hk. apply known_type_cases in Hk.
  unfold download_attempt. rewrite Hnt.
  destruct Hk as [H1 | [[H1 H2] | (H1 & H2 & H3)]].
  - rewrite H1. unfold_run.
    repeat (cbv beta iota zeta; case_match); simplify_eq; finish_attempt.
  - rewrite H1, H2. unfold suite_indirect.
    assert (api (__init__ cfg) = Some (cfg_indirect cfg)) as ->.
    { unfold __init__. rewrite H1, H2. reflexivity. }
    unfold_run.
    repeat (cbv beta iota zeta; case_match); simplify_eq; finish_attempt.
  - rewrite H1, H2, H3. unfold suite_direct.
    assert (img_url (__init__ cfg) = Some (cfg_direct cfg)) as ->.
    { unfold __init__. rewrite H1, H2, H3. reflexivity. }
    unfold_run.
    repeat (cbv beta iota zeta; case_match); simplify_eq; finish_attempt.
Qed.

(** One iteration of the [for] loop, by the outcome of its [try]
    suite. *)
Lemma download_loop_cons E self path date k rest w :
  download_loop E self path date 3 5 (k :: rest) w =
  match download_attempt E self path date 5 w with
  | (Ok (Returned r), w1, t1) => (Ok (Some r), w1, t1)
  | (Ok Next, w1, t1) =>
    let '(r, w2, t2) := download_loop E self path date 3 5 rest w1 in
    (r, w2, t1 ++ t2)
  | (Raise e, w1, t1) =>
    if k =? 2 then
      (Ok (Some ("接口报错，请联系管理员:" +:+ exn_str e, false)), w1,
       t1 ++ [EvLog ERROR (LogRetry (k + 1) 3 e); EvLog ERROR (LogGiveUp e)])
    else
      let '(r, w2, t2) := download_loop E self path date 3 5 rest w1 in
      (r, w2, t1 ++ [EvLog ERROR (LogRetry (k + 1) 3 e); EvSleep (seconds 1)] ++ t2)
  end.
Proof.
  cbn [download_loop]. unfold download_except.
  change (3 - 1) with 2.
  unfold_run.
  destruct (download_attempt E self path date 5 w) as [[[[x|]|e] w1] t1].
  - now rewrite app_nil_r.
  - destruct (download_loop E self path date 3 5 rest w1) as [[r w2] t2].
    reflexivity.
  - destruct (k =? 2).
    + now rewrite app_nil_r.
    + destruct (download_loop E self path date 3 5 rest w1) as [[r w2] t2].
      cbn [app]. now rewrite <- app_assoc.
Qed.

(** The loop returns from every world, in every mode. *)
Lemma download_loop_never_raises E self path date ks :
  never_raises (download_loop E self path date 3 5 ks).
Proof.
  induction ks as [|k ks IH]; intros w.
  - do 3 eexists; reflexivity.
  - rewrite download_loop_cons.
    destruct (download_attempt E self path date 5 w) as [[[[x|]|e] w1] t1].
    + do 3 eexists; reflexivity.
    + destruct (IH w1) as (a & w2 & t2 & ->). do 3 eexists; reflexivity.
    + destruct (k =? 2); [do 3 eexists; reflexivity|].
      destruct (IH w1) as (a & w2 & t2 & ->). do 3 eexists; reflexivity.
Qed.

Lemma download_news_unfold E self path w :
  _download_news E self path w
  = download_loop E self path (strftime_Ymd "-" (env_now E (w_tick w))) 3 5
                  [0; 1; 2] (tick w).
Proof.
  unfold _download_news, bind, datetime_now. cbv zeta.
  change (range 3) with [0; 1; 2].
  destruct (download_loop _ _ _ _ _ _ _ _) as [[[r|e] w'] t]; reflexivity.
Qed.

Lemma download_news_never_raises E self path :
  never_raises (_download_news E self path).
Proof.
  intros w. rewrite download_news_unfold.
  apply download_loop_never_raises.
Qed.




(** What makes an attempt succeed in the direct mode: the one request
    is answered 200, the body is read, and the file is written. *)
Lemma direct_attempt_succeeds_iff E cfg path date w :
  news_type (__init__ cfg) = "direct" ->
  exists r w' t,
    download_attempt E (__init__ cfg) path date 5 w = (r, w', t)
    /\ requests t = [cfg_direct cfg]
    /\ (r = Ok (Returned (path, true)) <->
        exists resp content,
          env_get E (w_tick w) (cfg_direct cfg) = Ok resp
          /\ status resp = 200
          /\ read resp = Ok content
          /\ env_write E (S (w_tick w)) path = Written).
Proof.
  intros Hnt. pose proof (news_type_init cfg) as Hd. rewrite Hnt in Hd.
  assert (Hu : img_url (__init__ cfg) = Some (cfg_direct cfg)).
  { unfold __init__. rewrite <- Hd. reflexivity. }
  unfold download_attempt. rewrite Hnt. cbn [String.eqb Ascii.eqb Bool.eqb].
  unfold suite_direct. rewrite Hu. unfold_run.
  cbv beta iota zeta delta [tick]; cbn [w_tick w_fs].
  destruct (env_get E (w_tick w) (cfg_direct cfg)) as [resp|e] eqn:Hget.
  2: { do 3 eexists. split; [reflexivity|]. split; [reflexivity|].
       split; [discriminate | intros (? & ? & ? & _); congruence]. }
  destruct (Z.eqb_spec (status resp) 200) as [Hst|Hst].
  2: { do 3 eexists. split; [reflexivity|]. split; [reflexivity|].
       split; [discriminate | intros (? & ? & ? & ? & _); congruence]. }
  destruct (read resp) as [content|e] eqn:Hread.
  2: { do 3 eexists. split; [reflexivity|]. split; [reflexivity|].
       split; [discriminate | intros (? & ? & ? & ? & ? & _); congruence]. }
  cbv beta iota zeta delta [tick]; cbn [w_tick w_fs].
  destruct (env_write E (S (w_tick w)) path) eqn:Hwrite;
    do 3 eexists; (split; [reflexivity|]); (split; [reflexivity|]).
  - split; [eauto 10 | reflexivity].
  - split; [discriminate | intros (? & ? & ? & ? & ? & ?); congruence].
  - split; [discriminate | intros (? & ? & ? & ? & ? & ?); congruence].
Qed.


Example flaky_run :
  let '(r, w', t) :=
    _download_news flaky (__init__ (config_of "direct" 7)) today_path empty_world in
  r = Ok (Some (today_path, true))
  /\ attempts t = 3%nat /\ failures t = [(1, 3); (2, 3)]
  /\ sleeps t = [seconds 1; seconds 1]
  /\ w_fs w' !! today_path = Some "IMG".
Proof. vm_compute. repeat split; reflexivity. Qed.

Example down_run :
  let '(r, w', t) :=
    _download_news down (__init__ (config_of "direct" 7)) today_path empty_world in
  r = Ok (Some ("接口报错，请联系管理员:API返回错误代码: 500", false))
  /\ attempts t = 3%nat /\ failures t = [(1, 3); (2, 3); (3, 3)]
  /\ sleeps t = [seconds 1; seconds 1]
  /\ w_fs w' !! today_path = None.
Proof. vm_compute. repeat split; reflexivity. Qed.

Example calm_run :
  let '(r, w', t) :=
    _download_news calm (__init__ (config_of "vikiboss_api" 7)) today_path empty_world in
  r = Ok (Some (today_path, true))
  /\ attempts t = 1%nat /\ failures t = [] /\ sleeps t = []
  /\ requests t = ["https://60s-api.viki.moe/v2/60s?date=2024-01-10&encoding=image-proxy"].
Proof. vm_compute. repeat split; reflexivity. Qed.

End DownloaderFacts.

(* ===================================================================== *)
(** ** The on-demand read path and unknown source modes                    *)
(* ===================================================================== *)

Module ReadPathFacts.
Import Calendar DateTime PyStr Json Runtime Plugin Observations Examples.
Import DownloaderFacts.
Local Open Scope py_scope.

Lemma get_image_news_unfold (E : env) (self : plugin) (w : world) :
  _get_image_news E self w
  = let path := os_path_join (news_path self)
                             (strftime_Ymd EmptyString (env_now E (w_tick w)) +:+ ".jpeg") in
    if bool_decide (is_Some (w_fs w !! path))
    then (Ok (Some (path, true)), tick w, [EvLog INFO (LogPath path)])
    else let '(r, w', t) := _download_news E self path (tick w) in
         (r, w', EvLog INFO (LogPath path) :: t).
Proof.
  unfold _get_image_news, _get_news_file_path.
  cbv beta iota zeta delta [bind datetime_now logger_info emit ret os_path_exists].
  change (w_fs (tick w)) with (w_fs w).
  destruct (bool_decide _); [reflexivity|].
  destruct (_download_news _ _ _ _) as [[[r|e] w'] t]; reflexivity.
Qed.

(** C4.  With [path] the cache file of the day the clock shows:
    if [path] exists, [_get_image_news] returns [(path, True)] having
    done nothing but log the path, so it requests nothing; if not, it
    is one run of [_download_news] on [path], whose result, world and
    events it hands on unchanged. *)
Theorem get_image_news_cache_first (E : env) (self : plugin) (w : world) :
  let path := os_path_join (news_path self)
                           (strftime_Ymd EmptyString (env_now E (w_tick w)) +:+ ".jpeg") in
  match w_fs w !! path with
  | Some _ =>
    _get_image_news E self w
    = (Ok (Some (path, true)), tick w, [EvLog INFO (LogPath path)])
    /\ requests (snd (_get_image_news E self w)) = []
  | None =>
    _get_image_news E self w
    = (let '(r, w', t) := _download_news E self path (tick w) in
       (r, w', EvLog INFO (LogPath path) :: t))
  end.
Proof.
  intros path. rewrite !get_image_news_unfold. cbv zeta. fold path.
  destruct (w_fs w !! path) as [content|] eqn:Hl.
  - rewrite bool_decide_eq_true_2 by eauto. split; reflexivity.
  - rewrite bool_decide_eq_false_2; [reflexivity|].
    intros [? ?]; discriminate.
Qed.

Example warm_cache_read :
  _get_image_news down (__init__ (config_of "direct" 7)) warm_cache
  = (Ok (Some (today_path, true)), tick warm_cache, [EvLog INFO (LogPath today_path)]).
Proof. vm_compute. reflexivity. Qed.

(** In a mode the constructor does not know, the [try] suite does
    nothing. *)
Lemma attempt_unknown E cfg path date timeout w :
  is_known_type (news_type (__init__ cfg)) = false ->
  download_attempt E (__init__ cfg) path date timeout w = (Ok Next, w, []).
Proof.
  intros Hk.
  pose proof (news_type_init cfg) as Hnt.
  rewrite Hnt in Hk. unfold is_known_type in Hk.
  apply orb_false_elim in Hk as [Hk H3]. apply orb_false_elim in Hk as [H1 H2].
  unfold download_attempt. rewrite Hnt, H1, H2, H3. reflexivity.
Qed.

Lemma download_news_unknown E cfg path w :
  is_known_type (news_type (__init__ cfg)) = false ->
  _download_news E (__init__ cfg) path w = (Ok None, tick w, []).
Proof.
  intros Hk. rewrite download_news_unfold.
  do 3 (rewrite download_loop_cons, attempt_unknown by assumption; cbv beta iota).
  reflexivity.
Qed.

Lemma download_news_known E cfg path w :
  is_known_type (news_type (__init__ cfg)) = true ->
  exists r w' t, _download_news E (__init__ cfg) path w = (Ok (Some r), w', t).
Proof.
  intros Hk. rewrite download_news_unfold.
  set (date := strftime_Ymd "-" (env_now E (w_tick w))).
  rewrite download_loop_cons.
  destruct (attempt_shape E cfg path date 5 (tick w) Hk)
    as (r1 & w1 & t1 & -> & _ & _ & _ & Hn1 & _).
  destruct r1 as [[x1|]|e1]; [eauto|congruence|].
  change (0 =? 2) with false. cbv iota. rewrite download_loop_cons.
  destruct (attempt_shape E cfg path date 5 w1 Hk)
    as (r2 & w2 & t2 & -> & _ & _ & _ & Hn2 & _).
  destruct r2 as [[x2|]|e2]; [eauto|congruence|].
  change (1 =? 2) with false. cbv iota. rewrite download_loop_cons.
  destruct (attempt_shape E cfg path date 5 w2 Hk)
    as (r3 & w3 & t3 & -> & _ & _ & _ & Hn3 & _).
  destruct r3 as [[x3|]|e3]; [eauto|congruence|].
  change (2 =? 2) with true. cbv iota. eauto.
Qed.

(** C10.  [_download_news] returns a pair whenever the configured
    [news_type] is one of the three known modes.  For any other value
    every pass of its loop skips the suite without raising and without
    a request, and it returns [None].  [_get_image_news] does not
    unpack that result: when today's file is absent it returns the
    [None] itself.  Its callers unpack and fail there with a
    [TypeError]: [push_image_news] raises it, and the loop body of
    [_send_daily_news_to_groups] catches it, logs it and pauses.
    [_update_news_files] ignores the result and returns normally. *)
Theorem download_news_pair_iff_known_type
        (E : env) (cfg : config) (path : string) (w : world) :
  (is_known_type (news_type (__init__ cfg)) = true ->
   exists r w' t, _download_news E (__init__ cfg) path w = (Ok (Some r), w', t))
  /\ (is_known_type (news_type (__init__ cfg)) = false ->
      let today := os_path_join (news_path (__init__ cfg))
                                (strftime_Ymd EmptyString (env_now E (w_tick w)) +:+ ".jpeg") in
      let unpack_error := TypeError "cannot unpack non-iterable NoneType object" in
      _download_news E (__init__ cfg) path w = (Ok None, tick w, [])
      /\ (w_fs w !! today = None ->
          _get_image_news E (__init__ cfg) w
          = (Ok None, tick (tick w), [EvLog INFO (LogPath today)])
          /\ push_image_news E (__init__ cfg) w
             = (Raise unpack_error, tick (tick w), [EvLog INFO (LogPath today)])
          /\ forall target,
              push_to_target E (__init__ cfg) target w
              = (Ok tt, tick (tick w),
                 [EvLog INFO (LogPath today);
                  EvLog ERROR (LogPushFailed (exn_str unpack_error));
                  EvLog ERROR LogDetail;
                  EvSleep (seconds 2)]))
      /\ _update_news_files E (__init__ cfg) w
         = (Ok tt, tick (tick w), [EvLog INFO LogForceUpdate; EvLog INFO (LogPath today)])).
Proof.
  split; [apply download_news_known|].
  intros Hk today unpack_error.
  split; [now apply download_news_unknown|]. split.
  - intros Habsent.
    assert (Hget : _get_image_news E (__init__ cfg) w
                   = (Ok None, tick (tick w), [EvLog INFO (LogPath today)])).
    { rewrite get_image_news_unfold. cbv zeta. fold today.
      rewrite bool_decide_eq_false_2 by (rewrite Habsent; intros [? ?]; discriminate).
      now rewrite download_news_unknown. }
    split; [exact Hget|]. split.
    + unfold push_image_news, bind. rewrite Hget. reflexivity.
    + intros target. unfold push_to_target, try_except, bind at 1.
      rewrite Hget. reflexivity.
  - unfold _update_news_files, _get_news_file_path.
    cbv beta iota zeta delta [bind datetime_now logger_info emit ret].
    fold today. rewrite download_news_unknown by assumption. reflexivity.
Qed.

Lemma download_news_pair_iff_known_type_witness :
  (is_known_type (news_type (__init__ (config_of "rss" 7))) = false)
  /\ _download_news calm (__init__ (config_of "rss" 7)) today_path empty_world
     = (Ok None, tick empty_world, []).
Proof.
  split; [reflexivity|].
  apply (download_news_pair_iff_known_type calm (config_of "rss" 7) today_path empty_world).
  reflexivity.
Defined.

(** In an unknown mode [_get_image_news] returns [None]; it does not
    raise. *)
Lemma get_image_news_unknown_type_does_not_fail :
  _get_image_news calm (__init__ (config_of "rss" 7)) empty_world
  = (Ok None, tick (tick empty_world), [EvLog INFO (LogPath today_path)])
  /\ ~ (exists e w' t,
          _get_image_news calm (__init__ (config_of "rss" 7)) empty_world
          = (Raise e, w', t)).
Proof.
  split; [vm_compute; reflexivity|].
  intros (e & w' & t & H). vm_compute in H. discriminate H.
Qed.

End ReadPathFacts.

(* ===================================================================== *)
(** ** The indirect source mode                                            *)
(* ===================================================================== *)

Module IndirectFacts.
Import Calendar DateTime PyStr Json Runtime Plugin Observations Examples.
Import DownloaderFacts.
Local Open Scope py_scope.

Lemma indirect_attempt_unfold E cfg path date timeout :
  news_type (__init__ cfg) = "indirect" ->
  download_attempt E (__init__ cfg) path date timeout
  = suite_indirect E (__init__ cfg) path timeout
  /\ api (__init__ cfg) = Some (cfg_indirect cfg).
Proof.
  intros Hnt. pose proof (news_type_init cfg) as Hd. rewrite Hnt in Hd.
  split.
  - unfold download_attempt. rewrite Hnt. reflexivity.
  - unfold __init__. rewrite <- Hd. reflexivity.
Qed.





Example indirect_scenario_ok :
  let '(r, w', t) :=
    download_attempt (answering fields_ok) (__init__ (config_of "indirect" 7))
                     today_path "2024-01-10" 5 empty_world in
  r = Ok (Returned (today_path, true))
  /\ requests t = ["http://api.example/news"; "http://x/y.jpg"]
  /\ w_fs w' !! today_path = Some "IMG".
Proof. vm_compute. repeat split; reflexivity. Qed.

(** [{code: 500, msg: "bad"}] fails the attempt with [bad] in the
    message, after one request. *)
Example indirect_scenario_bad :
  let '(r, w', t) :=
    download_attempt (answering fields_bad) (__init__ (config_of "indirect" 7))
                     today_path "2024-01-10" 5 empty_world in
  r = Raise (Exception "API返回错误: bad")
  /\ requests t = ["http://api.example/news"]
  /\ attempts t = 1%nat.
Proof. vm_compute. repeat split; reflexivity. Qed.


(** The status code is read under the key ["code"] and the message
    under the key ["msg"], for which the configuration has no entry:
    on a 200 response carrying a JSON object whose value under
    ["code"] is not 200, the attempt fails with the value under ["msg"]
    (or the default text) in its message. *)
Lemma indirect_status_and_message_keys_fixed
        (E : env) (cfg : config) (path date : string) (w : world)
        (resp : response) (fields : gmap string jval) :
  news_type (__init__ cfg) = "indirect" ->
  env_get E (w_tick w) (cfg_indirect cfg) = Ok resp ->
  status resp = 200 ->
  json resp = Ok (JsonObject fields) ->
  eq_200 (default JNull (fields !! "code")) = false ->
  download_attempt E (__init__ cfg) path date 5 w
  = (Raise (Exception ("API返回错误: "
                       +:+ py_str (default (JStr "未知错误") (fields !! "msg")))),
     tick w,
     [EvLog INFO (LogStartFetch (cfg_indirect cfg)); EvGet (cfg_indirect cfg) 5]).
Proof.
  intros Hnt Hget Hst Hjson Hcode.
  destruct (indirect_attempt_unfold E cfg path date 5 Hnt) as [-> Ha].
  unfold suite_indirect. rewrite Ha. unfold_run.
  rewrite Hget, Hst. cbv beta iota. change (200 =? 200) with true. cbv iota.
  rewrite Hjson. cbv beta iota. rewrite Hcode. reflexivity.
Qed.

Lemma indirect_status_and_message_keys_fixed_witness :
  download_attempt (answering fields_bad) (__init__ (config_of "indirect" 7))
                   today_path "2024-01-10" 5 empty_world
  = (Raise (Exception ("API返回错误: "
                       +:+ py_str (default (JStr "未知错误") (fields_bad !! "msg")))),
     tick empty_world,
     [EvLog INFO (LogStartFetch "http://api.example/news");
      EvGet "http://api.example/news" 5]).
Proof.
  apply (indirect_status_and_message_keys_fixed
           (answering fields_bad) (config_of "indirect" 7) today_path "2024-01-10"
           empty_world (Response 200 (Ok "IMG") (Ok (JsonObject fields_bad))) fields_bad);
    reflexivity.
Defined.

(** A run of [_download_news] depends on the plugin object through
    [news_type], [api] and [img_url] only: the [img_key] and the
    [date_key] that [__init__] stores are never read. *)
Lemma download_news_never_reads_img_key
      (E : env) (cfg : config) (nt np : string) (g : list string) (pt : string)
      (a ik dk ik' dk' iu : option string) (dbg : bool) (path : string) (w : world) :
  _download_news E (Self cfg nt np g pt a ik dk iu dbg) path w
  = _download_news E (Self cfg nt np g pt a ik' dk' iu dbg) path w.
Proof. reflexivity. Qed.

(** C6.  The code does not read the image URL under the configured
    field name, and by a slip: in indirect mode [__init__] stores the
    configured [img_key] (and [date_key]) in the plugin object, and
    [_download_news] never looks at them; it asks the JSON record for
    the literal key ["imageUrl"].  With [img_key = "url"] and the
    endpoint answering [{code: 200, url: "http://x/y.jpg"}], the
    image URL is under the configured key: the attempt fails with the
    missing-[imageUrl] message after its single request, the three
    attempts fail alike, the image is never requested, nothing is
    written and [_download_news] returns the error text with [False].
    Under the same configuration the record with the URL under
    ["imageUrl"] is downloaded. *)
Theorem configured_img_key_is_not_read :
  img_key (__init__ (config_of "indirect" 7)) = Some "url"
  /\ date_key (__init__ (config_of "indirect" 7)) = Some "day"
  /\ download_attempt (answering fields_configured_key)
                      (__init__ (config_of "indirect" 7))
                      today_path "2024-01-10" 5 empty_world
     = (Raise (Exception "响应中未找到imageUrl字段"), tick empty_world,
        [EvLog INFO (LogStartFetch "http://api.example/news");
         EvGet "http://api.example/news" 5])
  /\ (let '(r, w', t) :=
         _download_news (answering fields_configured_key)
                        (__init__ (config_of "indirect" 7)) today_path empty_world in
       r = Ok (Some ("接口报错，请联系管理员:响应中未找到imageUrl字段", false))
       /\ requests t = ["http://api.example/news"; "http://api.example/news";
                        "http://api.example/news"]
       /\ w_fs w' !! today_path = None)
  /\ (let '(r, w', t) :=
         _download_news (answering fields_ok)
                        (__init__ (config_of "indirect" 7)) today_path empty_world in
       r = Ok (Some (today_path, true))
       /\ requests t = ["http://api.example/news"; "http://x/y.jpg"]
       /\ w_fs w' !! today_path = Some "IMG").
Proof. vm_compute. repeat split; reflexivity. Qed.

End IndirectFacts.

(* ===================================================================== *)
(** ** The broadcast                                                       *)
(* ===================================================================== *)

Module BroadcastFacts.
Import Calendar DateTime PyStr Json Runtime Plugin Observations Examples.
Import DownloaderFacts ReadPathFacts.
Local Open Scope py_scope.

Lemma sends_app t1 t2 : sends (t1 ++ t2) = sends t1 ++ sends t2.
Proof. apply omap_app. Qed.

Lemma removals_app t1 t2 : removals (t1 ++ t2) = removals t1 ++ removals t2.
Proof. apply omap_app. Qed.

(** An attempt, in any mode and for any [self], sends nothing,
    removes nothing and does not pause. *)
Lemma attempt_quiet E self path date timeout w :
  exists r w' t,
    download_attempt E self path date timeout w = (r, w', t)
    /\ sends t = [] /\ sleeps t = [] /\ removals t = [].
Proof.
  unfold download_attempt.
  repeat case_match; unfold_run;
    repeat (cbv beta iota zeta; case_match); simplify_eq;
    do 3 eexists; (split; [reflexivity|]); repeat split; reflexivity.
Qed.

Lemma download_loop_quiet E self path date ks w :
  exists r w' t,
    download_loop E self path date 3 5 ks w = (Ok r, w', t)
    /\ sends t = [] /\ Forall (eq (seconds 1)) (sleeps t) /\ removals t = [].
Proof.
  revert w; induction ks as [|k ks IH]; intros w.
  - do 3 eexists. split; [reflexivity|]. repeat split; constructor.
  - rewrite download_loop_cons.
    destruct (attempt_quiet E self path date 5 w)
      as (r1 & w1 & t1 & -> & Hs1 & Hp1 & Hr1).
    destruct (IH w1) as (r2 & w2 & t2 & H2 & Hs2 & Hp2 & Hr2).
    destruct r1 as [[x|]|e].
    + do 3 eexists. split; [reflexivity|]. rewrite Hs1, Hp1, Hr1.
      repeat split; constructor.
    + rewrite H2. do 3 eexists. split; [reflexivity|].
      rewrite sends_app, sleeps_app, removals_app, Hs1, Hp1, Hr1, Hs2, Hr2.
      repeat split; try reflexivity; exact Hp2.
    + destruct (k =? 2).
      * do 3 eexists. split; [reflexivity|].
        rewrite sends_app, sleeps_app, removals_app, Hs1, Hp1, Hr1.
        repeat split; constructor.
      * rewrite H2. do 3 eexists. split; [reflexivity|].
        rewrite !sends_app, !sleeps_app, !removals_app, Hs1, Hp1, Hr1, Hs2, Hr2.
        repeat split; try reflexivity. cbn. constructor; [reflexivity | exact Hp2].
Qed.

Lemma download_news_quiet E self path w :
  exists r w' t,
    _download_news E self path w = (Ok r, w', t)
    /\ sends t = [] /\ Forall (eq (seconds 1)) (sleeps t) /\ removals t = [].
Proof. rewrite download_news_unfold. apply download_loop_quiet. Qed.

Lemma get_image_news_quiet E self w :
  exists r w' t,
    _get_image_news E self w = (Ok r, w', t)
    /\ sends t = [] /\ Forall (eq (seconds 1)) (sleeps t).
Proof.
  rewrite get_image_news_unfold. cbv zeta.
  destruct (bool_decide _).
  - do 3 eexists. split; [reflexivity|]. split; [reflexivity | constructor].
  - destruct (download_news_quiet E self
                (os_path_join (news_path self)
                              (strftime_Ymd EmptyString (env_now E (w_tick w)) +:+ ".jpeg"))
                (tick w))
      as (r & w' & t & -> & Hs & Hp & _).
    do 3 eexists. split; [reflexivity|]. split; assumption.
Qed.

(** One pass of the loop, for one target. *)
Lemma push_to_target_visits E self target w :
  exists w' seg,
    push_to_target E self target w = (Ok tt, w', seg) /\ visited target seg.
Proof.
  unfold push_to_target, try_except. unfold bind at 1.
  destruct (get_image_news_quiet E self w) as (r & w1 & t1 & -> & Hs & Hp).
  destruct r as [[news_path b]|]; unfold_run.
  - destruct (env_send E (w_tick w1) target _) as [e|].
    + do 2 eexists. split; [reflexivity|]. right.
      exists (t1 ++ [EvLog INFO (LogPushImage news_path);
                     EvSend target (Chain "每日新闻播报：" news_path)]),
             (match exn_str e with EmptyString => "未知错误" | s => s end).
      split; [cbn; rewrite <- !app_assoc; reflexivity|].
      rewrite sends_app, sleeps_app, Hs, app_nil_r. split; [right; reflexivity | exact Hp].
    + do 2 eexists. split; [reflexivity|]. left.
      exists t1, news_path. split; [cbn; rewrite ?app_nil_r; reflexivity|].
      split; assumption.
  - do 2 eexists. split; [reflexivity|]. right.
    exists t1, "cannot unpack non-iterable NoneType object".
    split; [cbn; rewrite ?app_nil_r; reflexivity|].
    split; [left; exact Hs | exact Hp].
Qed.

Lemma for_each_targets E self targets w :
  exists w' segs,
    for_each (push_to_target E self) targets w = (Ok tt, w', concat segs)
    /\ Forall2 visited targets segs.
Proof.
  revert w; induction targets as [|target targets IH]; intros w.
  - exists w, []. split; [reflexivity | constructor].
  - cbn [for_each]. unfold bind.
    destruct (push_to_target_visits E self target w) as (w1 & seg & -> & Hv).
    destruct (IH w1) as (w2 & segs & -> & Hvs).
    exists w2, (seg :: segs). split; [reflexivity|]. now constructor.
Qed.




(** Delivery to [group_a] fails; [group_b] is served all the same, and
    both passes end with the pause. *)
Example broadcast_isolates_failures :
  let '(r, w', t) :=
    _send_daily_news_to_groups group_a_unreachable (__init__ (config_of "direct" 7))
                               warm_cache in
  r = Ok tt
  /\ sends t = ["group_a"; "group_b"]
  /\ sleeps t = [seconds 2; seconds 2]
  /\ omap (fun ev => match ev with
                     | EvLog _ (LogPushed g) => Some g
                     | _ => None
                     end) t = ["group_b"].
Proof. vm_compute. repeat split; reflexivity. Qed.

End BroadcastFacts.

(* ===================================================================== *)
(** ** The background loop                                                 *)
(* ===================================================================== *)

Module LoopFacts.
Import Calendar DateTime PyStr Strptime Json Runtime Plugin Observations Examples.
Import DownloaderFacts ReadPathFacts BroadcastFacts.
Local Open Scope py_scope.

(** [_calculate_sleep_time] reads the clock once and logs nothing. *)
Lemma calculate_sleep_time_run E self w :
  _calculate_sleep_time E self w
  = (sleep_time_from (push_time self) (env_now E (w_tick w)), tick w, []).
Proof.
  unfold _calculate_sleep_time, bind, datetime_now, lift.
  destruct (sleep_time_from _ _); reflexivity.
Qed.

(** [_update_news_files] is one run of [_download_news] on today's
    path, whether or not that file is there; it never raises, sends
    nothing and removes nothing. *)
Lemma update_news_files_run E self w :
  exists r w' t,
    _download_news E self
                   (os_path_join (news_path self)
                                 (strftime_Ymd EmptyString (env_now E (w_tick w)) +:+ ".jpeg"))
                   (tick w) = (Ok r, w', t)
    /\ _update_news_files E self w
       = (Ok tt, w',
          EvLog INFO LogForceUpdate
          :: EvLog INFO (LogPath (os_path_join
                                    (news_path self)
                                    (strftime_Ymd EmptyString (env_now E (w_tick w)) +:+ ".jpeg")))
          :: t)
    /\ sends t = [] /\ removals t = [].
Proof.
  unfold _update_news_files, _get_news_file_path.
  cbv beta iota zeta delta [bind datetime_now logger_info emit ret].
  destruct (download_news_quiet
              E self
              (os_path_join (news_path self)
                            (strftime_Ymd EmptyString (env_now E (w_tick w)) +:+ ".jpeg"))
              (tick w)) as (r & w' & t & Hd & Hs & _ & Hr).
  exists r, w', t. split; [exact Hd|]. rewrite Hd.
  cbn [app]. rewrite app_nil_r. auto.
Qed.

Lemma update_news_files_total E self w :
  exists w' t,
    _update_news_files E self w = (Ok tt, w', t)
    /\ sends t = [] /\ removals t = [].
Proof.
  destruct (update_news_files_run E self w) as (r & w' & t & _ & -> & Hs & Hr).
  do 2 eexists. split; [reflexivity|]. cbn. auto.
Qed.

(** The body of the sweep swallows whatever is raised. *)
Lemma delete_if_expired_never_raises E self save_days name :
  never_raises (delete_if_expired E self save_days name).
Proof.
  intros w. unfold delete_if_expired, try_except.
  destruct (bind _ _ w) as [[[[]|e] w'] t]; do 3 eexists; reflexivity.
Qed.

Lemma for_each_never_raises {A} (body : A -> M unit) (l : list A) :
  (forall x, never_raises (body x)) -> never_raises (for_each body l).
Proof.
  intros Hb. induction l as [|x l IH]; intros w.
  - do 3 eexists; reflexivity.
  - cbn [for_each]. unfold bind.
    destruct (Hb x w) as ([] & w1 & t1 & ->).
    destruct (IH w1) as ([] & w2 & t2 & ->).
    do 3 eexists; reflexivity.
Qed.

(** The sweep either refuses a non-positive [save_days], touching
    nothing, or runs to its end. *)
Lemma delete_expired_news_files_run E self w :
  (cfg_save_days (self_config self) <= 0
   /\ _delete_expired_news_files E self w
      = (Raise (ValueError "保存天数不能小于0"), w, []))
  \/ (0 < cfg_save_days (self_config self)
      /\ exists w' t, _delete_expired_news_files E self w = (Ok tt, w', t)).
Proof.
  unfold _delete_expired_news_files.
  destruct (Z.leb_spec (cfg_save_days (self_config self)) 0) as [Hle|Hgt].
  - left. split; [exact Hle | reflexivity].
  - right. split; [exact Hgt|]. unfold bind at 1, os_listdir.
    destruct (for_each_never_raises
                (delete_if_expired E self (cfg_save_days (self_config self)))
                (listdir (news_path self) (w_fs w))
                (delete_if_expired_never_raises E self _) w)
      as ([] & w' & t & ->).
    do 2 eexists; reflexivity.
Qed.

Lemma send_daily_news_run E self w :
  exists w' t, _send_daily_news_to_groups E self w = (Ok tt, w', t).
Proof.
  unfold _send_daily_news_to_groups.
  destruct (for_each_targets E self (cfg_groups (self_config self)) w)
    as (w' & segs & -> & _).
  do 2 eexists; reflexivity.
Qed.

(** One pass through the loop: a full cycle, or a recovery. *)
Lemma daily_cycle_shape E self w :
  exists w' t,
    daily_cycle E self w = (Ok tt, w', t)
    /\ ((exists d w1 tu w2 tp tb,
            _calculate_sleep_time E self w = (Ok d, tick w, [])
            /\ _update_news_files E self (tick w) = (Ok tt, w1, tu)
            /\ _delete_expired_news_files E self w1 = (Ok tt, w2, tp)
            /\ _send_daily_news_to_groups E self w2 = (Ok tt, w', tb)
            /\ t = [EvLog INFO (LogNextPush d); EvSleep d]
                   ++ tu ++ tp ++ tb ++ [EvSleep (seconds 60)])
        \/ (exists e pre,
               t = pre ++ [EvLog ERROR (LogTaskError e); EvPrintExc e;
                           EvSleep (seconds 300)]
               /\ removals pre = [] /\ sends pre = []
               /\ ((_calculate_sleep_time E self w = (Raise e, tick w, [])
                    /\ pre = [] /\ w' = tick w)
                   \/ (exists d tu,
                          _calculate_sleep_time E self w = (Ok d, tick w, [])
                          /\ _update_news_files E self (tick w) = (Ok tt, w', tu)
                          /\ _delete_expired_news_files E self w'
                             = (Raise e, w', [])
                          /\ cfg_save_days (self_config self) <= 0
                          /\ pre = [EvLog INFO (LogNextPush d); EvSleep d] ++ tu)))).
Proof.
  unfold daily_cycle, try_except. unfold bind at 1.
  rewrite calculate_sleep_time_run.
  destruct (sleep_time_from (push_time self) (env_now E (w_tick w))) as [d|e] eqn:Hcalc.
  2: { do 2 eexists. split; [reflexivity|]. right. exists e, [].
       split; [reflexivity|]. split; [reflexivity|]. split; [reflexivity|].
       left. auto. }
  cbv beta iota. unfold bind at 1 2, logger_info, asyncio_sleep, emit. cbv beta iota.
  unfold bind at 1.
  destruct (update_news_files_total E self (tick w)) as (w1 & tu & Hup & Hsu & Hru).
  rewrite Hup. unfold bind at 1.
  destruct (delete_expired_news_files_run E self w1)
    as [[Hle Hpr] | [Hgt (w2 & tp & Hpr)]]; rewrite Hpr.
  - cbv beta iota zeta delta [bind logger_error print_exc asyncio_sleep emit].
    do 2 eexists. split; [reflexivity|]. right.
    exists (ValueError "保存天数不能小于0"),
           ([EvLog INFO (LogNextPush d); EvSleep d] ++ tu).
    split; [cbn [app]; rewrite ?app_nil_r, <- ?app_assoc; reflexivity|].
    rewrite removals_app, sends_app, Hsu, Hru.
    split; [reflexivity|]. split; [reflexivity|].
    right. exists d, tu. auto 10.
  - unfold bind at 1.
    destruct (send_daily_news_run E self w2) as (w3 & tb & Hbc). rewrite Hbc.
    cbv beta iota zeta delta [bind asyncio_sleep emit].
    do 2 eexists. split; [reflexivity|]. left.
    exists d, w1, tu, w2, tp, tb.
    repeat split; try assumption.
    all: cbn [app]; rewrite ?app_nil_r, <- ?app_assoc; reflexivity.
Qed.


Lemma daily_task_succ E self n w :
  _daily_task E self (S n) w
  = (let '(_, w1, t1) := daily_cycle E self w in
     let '(r, w2, t2) := _daily_task E self n w1 in
     (r, w2, t1 ++ t2)).
Proof.
  cbn [_daily_task]. unfold bind.
  destruct (daily_cycle_shape E self w) as (w1 & t1 & -> & _). reflexivity.
Qed.




(** Two passes on a calm day: each is a full cycle, and the refresh
    requests the image although the first pass has stored it. *)
Example two_calm_passes :
  let '(r, w', t) := _daily_task calm (__init__ (config_of "direct" 7)) 2 empty_world in
  r = Ok tt
  /\ sleeps t = [seconds 86399; seconds 2; seconds 2; seconds 60;
                 seconds 86399; seconds 2; seconds 2; seconds 60]
  /\ requests t = ["http://img.example/today.jpeg"; "http://img.example/today.jpeg"]
  /\ sends t = ["group_a"; "group_b"; "group_a"; "group_b"].
Proof. vm_compute. repeat split; reflexivity. Qed.

Lemma delete_expired_refuses E self w :
  cfg_save_days (self_config self) <= 0 ->
  _delete_expired_news_files E self w = (Raise (ValueError "保存天数不能小于0"), w, []).
Proof.
  intros Hle. unfold _delete_expired_news_files.
  destruct (Z.leb_spec (cfg_save_days (self_config self)) 0); [reflexivity | lia].
Qed.

(** C5.  With [save_days <= 0] the sweep raises its [ValueError] at
    once: the world is as it was and no event, in particular no
    removal, has happened.  The command handler [clean_news] does not
    catch it, so the command fails with it.  Inside [_daily_task] the
    pass that reaches the sweep catches it: the pass removes nothing
    and sends nothing, logs the error, pauses 300 seconds and returns
    to the head of the loop, and the loop goes on for any number of
    passes. *)
Theorem non_positive_save_days_refused
        (E : env) (self : plugin) (w : world) (sender_name : string) :
  cfg_save_days (self_config self) <= 0 ->
  _delete_expired_news_files E self w
  = (Raise (ValueError "保存天数不能小于0"), w, [])
  /\ clean_news E self sender_name w
     = (Raise (ValueError "保存天数不能小于0"), w, [])
  /\ (exists w' e pre,
         daily_cycle E self w
         = (Ok tt, w',
            pre ++ [EvLog ERROR (LogTaskError e); EvPrintExc e; EvSleep (seconds 300)])
         /\ removals pre = [] /\ sends pre = []
         /\ (forall d,
                sleep_time_from (push_time self) (env_now E (w_tick w)) = Ok d ->
                e = ValueError "保存天数不能小于0"))
  /\ (forall n, exists w' t, _daily_task E self n w = (Ok tt, w', t)
                             /\ removals t = [] /\ (n <= length t)%nat).
Proof.
  intros Hle.
  assert (Hcycle : forall w0,
             exists w' e pre,
               daily_cycle E self w0
               = (Ok tt, w',
                  pre ++ [EvLog ERROR (LogTaskError e); EvPrintExc e;
                          EvSleep (seconds 300)])
               /\ removals pre = [] /\ sends pre = []
               /\ (forall d,
                      sleep_time_from (push_time self) (env_now E (w_tick w0)) = Ok d ->
                      e = ValueError "保存天数不能小于0")).
  { intros w0. destruct (daily_cycle_shape E self w0) as (w' & t & Hrun & Hshape).
    destruct Hshape as [(d & w1 & tu & w2 & tp & tb & _ & _ & Hpr & _)
                       | (e & pre & -> & Hr & Hs & Hwhy)].
    - rewrite (delete_expired_refuses E self w1 Hle) in Hpr. discriminate.
    - exists w', e, pre. split; [exact Hrun|]. split; [exact Hr|]. split; [exact Hs|].
      intros d Hd.
      destruct Hwhy as [(Hcalc & _) | (d' & tu & _ & _ & Hpr & _)].
      + rewrite calculate_sleep_time_run, Hd in Hcalc. discriminate.
      + rewrite (delete_expired_refuses E self w' Hle) in Hpr. congruence. }
  split; [now apply delete_expired_refuses|]. split.
  - unfold clean_news, bind. now rewrite delete_expired_refuses.
  - split; [apply Hcycle|].
    intros n. revert w. induction n as [|n IH]; intros w.
    + do 2 eexists. split; [reflexivity|]. split; [reflexivity | cbn; lia].
    + rewrite daily_task_succ.
      destruct (Hcycle w) as (w1 & e & pre & -> & Hr & _).
      destruct (IH w1) as (w2 & t2 & -> & Hr2 & Hlen).
      do 2 eexists. split; [reflexivity|].
      rewrite !removals_app, Hr, Hr2, !length_app. split; [reflexivity | cbn; lia].
Qed.

Lemma non_positive_save_days_refused_witness :
  cfg_save_days (self_config (__init__ (config_of "direct" 0))) <= 0
  /\ _delete_expired_news_files calm (__init__ (config_of "direct" 0)) old_cache
     = (Raise (ValueError "保存天数不能小于0"), old_cache, []).
Proof.
  split; [vm_compute; discriminate|].
  apply (non_positive_save_days_refused calm (__init__ (config_of "direct" 0))
           old_cache "admin").
  vm_compute; discriminate.
Defined.

(** With [save_days = 0] a pass refreshes, fails at the sweep, and
    recovers; the old files are all still there. *)
Example pass_with_zero_save_days :
  let '(r, w', t) := daily_cycle calm (__init__ (config_of "direct" 0)) old_cache in
  r = Ok tt
  /\ removals t = [] /\ sends t = []
  /\ sleeps t = [seconds 86399; seconds 300]
  /\ last t = Some (EvSleep (seconds 300))
  /\ w_fs w' !! (SAVED_NEWS_DIR +:+ "/20240102.jpeg") = Some "a".
Proof. vm_compute. repeat split; reflexivity. Qed.

End LoopFacts.

(* ===================================================================== *)
(** ** Dates, their ordinals and their eight-digit names                   *)
(* ===================================================================== *)

Module CalendarFacts.
Import Calendar DateTime PyStr Strptime Runtime Plugin Observations Examples.

Ltac fold_consts :=
  repeat match goal with
         | |- context [Z.pos ?a - Z.pos ?b] =>
           let v := eval vm_compute in (Z.pos a - Z.pos b) in
           change (Z.pos a - Z.pos b) with v
         end.

(** The day of the year, split into month and day as [_ord2ymd] does. *)
Lemma month_split (leapyear : bool) (r mo : Z) :
  0 <= r <= 364 -> mo = (r + 50) / 32 ->
  let preceding := _DAYS_BEFORE_MONTH mo + (if (2 <? mo) && leapyear then 1 else 0) in
  let '(m, d) :=
    if r <? preceding then
      (mo - 1,
       r - (preceding - (_DAYS_IN_MONTH (mo - 1)
                         + (if (mo - 1 =? 2) && leapyear then 1 else 0))) + 1)
    else (mo, r - preceding + 1) in
  1 <= m <= 12
  /\ 1 <= d <= (if (m =? 2) && leapyear then 29 else _DAYS_IN_MONTH m)
  /\ _DAYS_BEFORE_MONTH m + (if (2 <? m) && leapyear then 1 else 0) + d = r + 1.
Proof.
  intros Hr Hmo.
  assert (Hb : 32 * mo <= r + 50 < 32 * mo + 32)
    by (subst mo; Z.div_mod_to_equations; lia).
  assert (Hcases : mo = 1 \/ mo = 2 \/ mo = 3 \/ mo = 4 \/ mo = 5 \/ mo = 6 \/ mo = 7
                   \/ mo = 8 \/ mo = 9 \/ mo = 10 \/ mo = 11 \/ mo = 12) by lia.
  clear Hmo.
  destruct Hcases as [->|[->|[->|[->|[->|[->|[->|[->|[->|[->|[->| ->]]]]]]]]]]];
    destruct leapyear; fold_consts; cbn;
    match goal with |- context [r <? ?b] => destruct (Z.ltb_spec r b) end;
    cbn; lia.
Qed.

Lemma is_leap_true y :
  y mod 4 = 0 -> (y mod 100 <> 0 \/ y mod 400 = 0) -> _is_leap y = true.
Proof.
  intros H4 H. unfold _is_leap. apply andb_true_intro. split.
  - now apply Z.eqb_eq.
  - apply orb_true_iff. destruct H as [H|H].
    + left. apply negb_true_iff. now apply Z.eqb_neq.
    + right. now apply Z.eqb_eq.
Qed.

Lemma is_leap_false y :
  (y mod 4 <> 0 \/ (y mod 100 = 0 /\ y mod 400 <> 0)) -> _is_leap y = false.
Proof.
  intros H. unfold _is_leap. apply andb_false_iff. destruct H as [H|[H1 H2]].
  - left. now apply Z.eqb_neq.
  - right. apply orb_false_iff. split.
    + apply negb_false_iff. now apply Z.eqb_eq.
    + now apply Z.eqb_neq.
Qed.

Lemma check_date_fields_intro y m d :
  1 <= y <= 9999 -> 1 <= m <= 12 -> 1 <= d <= _days_in_month y m ->
  _check_date_fields y m d = true.
Proof.
  intros Hy Hm Hd. unfold _check_date_fields, MINYEAR, MAXYEAR.
  repeat (apply andb_true_intro; split); apply Z.leb_le; lia.
Qed.

(** [_ord2ymd] returns a date the constructor accepts, and
    [_ymd2ord] takes it back to the ordinal. *)
Lemma ord2ymd_ymd2ord n :
  1 <= n <= _MAXORDINAL ->
  let '(y, m, d) := _ord2ymd n in
  _check_date_fields y m d = true /\ _ymd2ord y m d = n
  /\ _days_before_year y < n <= _days_before_year (y + 1).
Proof.
  intros Hn. unfold _ord2ymd, _MAXORDINAL in *. cbv [_DI400Y _DI100Y _DI4Y]. cbv zeta.
  rewrite Z.shiftr_div_pow2 by lia. change (2 ^ 5) with 32.
  remember ((n - 1) / 146097) as a eqn:Ha.
  remember ((n - 1) mod 146097) as r400 eqn:Hr400.
  remember (r400 / 36524) as b eqn:Hb.
  remember (r400 mod 36524) as r100 eqn:Hr100.
  remember (r100 / 1461) as c eqn:Hc.
  remember (r100 mod 1461) as r4 eqn:Hr4.
  remember (r4 / 365) as n1 eqn:Hn1.
  remember (r4 mod 365) as r1 eqn:Hr1.
  assert (Hsum : n - 1 = 146097 * a + 36524 * b + 1461 * c + 365 * n1 + r1
                 /\ 0 <= a <= 24 /\ 0 <= b <= 4 /\ 0 <= c <= 24 /\ 0 <= n1 <= 4
                 /\ 0 <= r1 <= 364
                 /\ 1461 * c + 365 * n1 + r1 <= 36523
                 /\ 365 * n1 + r1 <= 1460
                 /\ 36524 * b + 1461 * c + 365 * n1 + r1 <= 146096)
    by (subst; Z.div_mod_to_equations; lia).
  clear Ha Hr400 Hb Hr100 Hc Hr4 Hn1 Hr1 r400 r100 r4.
  destruct Hsum as (Hsum & Hba & Hbb & Hbc & Hbn1 & Hbr1 & H100 & H4 & H400).
  remember ((r1 + 50) / 32) as mo eqn:Hmo.
  set (year := a * 400 + 1 + b * 100 + c * 4 + n1).
  destruct ((n1 =? 4) || (b =? 4)) eqn:Hsp.
  - assert (Hsp' : n1 = 4 \/ b = 4).
    { apply orb_true_iff in Hsp as [H|H]; apply Z.eqb_eq in H; auto. }
    assert (Hleap : _is_leap (year - 1) = true).
    { apply is_leap_true; subst year; Z.div_mod_to_equations; lia. }
    assert (Hdby : _days_before_year (year - 1) = n - 366).
    { unfold _days_before_year. subst year. cbv zeta.
      Z.div_mod_to_equations. lia. }
    split; [|split].
    + apply check_date_fields_intro; [subst year; lia | lia |].
      unfold _days_in_month. cbn. lia.
    + unfold _ymd2ord, _days_before_month. rewrite Hdby, Hleap. cbn. lia.
    + split; [lia|]. unfold _days_before_year. subst year. cbv zeta.
      Z.div_mod_to_equations. lia.
  - apply orb_false_iff in Hsp as [Hn4 Hb4].
    apply Z.eqb_neq in Hn4. apply Z.eqb_neq in Hb4.
    set (leapyear := (n1 =? 3) && (negb (c =? 24) || (b =? 3))).
    assert (Hleap : _is_leap year = leapyear).
    { subst leapyear year.
      destruct (Z.eqb_spec n1 3) as [->|Hn3]; cbn [andb].
      - destruct (Z.eqb_spec c 24) as [->|Hc24]; cbn [negb orb].
        + destruct (Z.eqb_spec b 3) as [->|Hb3].
          * apply is_leap_true; Z.div_mod_to_equations; lia.
          * apply is_leap_false; Z.div_mod_to_equations; lia.
        + apply is_leap_true; Z.div_mod_to_equations; lia.
      - apply is_leap_false; Z.div_mod_to_equations; lia. }
    assert (Hdby : _days_before_year year = n - 1 - r1).
    { unfold _days_before_year. subst year. cbv zeta.
      Z.div_mod_to_equations. lia. }
    pose proof (month_split leapyear r1 mo Hbr1 Hmo) as Hms. cbv zeta in Hms.
    destruct (r1 <? _DAYS_BEFORE_MONTH mo + (if (2 <? mo) && leapyear then 1 else 0));
      destruct Hms as (Hm & Hd & Hpre).
    all: split; [|split];
      try (split; [lia|]; unfold _days_before_year in *; subst year; cbv zeta in *;
           Z.div_mod_to_equations; lia).
    all: try (apply check_date_fields_intro;
              [subst year; lia | exact Hm |
               unfold _days_in_month; rewrite Hleap; exact Hd]).
    all: unfold _ymd2ord, _days_before_month; rewrite Hdby, Hleap; lia.
Qed.

Lemma ord2ymd_year_from_1000 n :
  _ymd2ord 1000 1 1 <= n <= _MAXORDINAL ->
  1000 <= fst (fst (_ord2ymd n)) <= 9999.
Proof.
  intros Hn. change (_ymd2ord 1000 1 1) with 364878 in Hn.
  assert (Hn' : 1 <= n <= _MAXORDINAL) by lia.
  pose proof (ord2ymd_ymd2ord n Hn') as H.
  destruct (_ord2ymd n) as [[y m] d]. cbn [fst].
  destruct H as (Hchk & _ & _ & Hup).
  unfold _check_date_fields, MINYEAR, MAXYEAR in Hchk.
  repeat (apply andb_prop in Hchk as [Hchk ?]).
  assert (1 <= y <= 9999) by (split; apply Z.leb_le; assumption).
  split; [|lia].
  unfold _days_before_year in Hup. cbv zeta in Hup.
  Z.div_mod_to_equations. lia.
Qed.

(** Four-digit years print as four digits and read back. *)
Lemma pad4_year y :
  1000 <= y <= 9999 ->
  exists a b c d,
    pad 4 y = String a (String b (String c (String d EmptyString)))
    /\ is_digit a = true /\ is_digit b = true /\ is_digit c = true
    /\ is_digit d = true
    /\ int (pad 4 y) = Ok y.
Proof.
  intros Hy.
  assert (Hall :
            forallb (fun y =>
                       match pad 4 y with
                       | String a (String b (String c (String d EmptyString))) =>
                         is_digit a && is_digit b && is_digit c && is_digit d
                         && match int (pad 4 y) with
                            | Ok v => v =? y
                            | Raise _ => false
                            end
                       | _ => false
                       end)
                    (map (fun k => 1000 + Z.of_nat k) (seq 0 (Z.to_nat 9000))) = true)
    by (vm_compute; reflexivity).
  rewrite forallb_forall in Hall.
  assert (Hin : In y (map (fun k => 1000 + Z.of_nat k) (seq 0 (Z.to_nat 9000)))).
  { apply in_map_iff. exists (Z.to_nat (y - 1000)). split; [lia|]. apply in_seq. lia. }
  specialize (Hall y Hin).
  destruct (pad 4 y) as [|a [|b [|c [|d [|]]]]]; try discriminate.
  destruct (int _) as [v|]; [|now rewrite andb_false_r in Hall].
  apply andb_prop in Hall as [Hall Hv]. apply andb_prop in Hall as [Hall Hdd].
  apply andb_prop in Hall as [Hall Hdc]. apply andb_prop in Hall as [Hda Hdb].
  apply Z.eqb_eq in Hv. subst v.
  exists a, b, c, d. auto 10.
Qed.

(** Months and days print as two digits, which the expressions for
    [%m] and [%d] match in full and which read back. *)
Lemma pad2_month_day m d :
  1 <= m <= 12 -> 1 <= d <= 31 ->
  exists e f g h,
    pad 2 m = String e (String f EmptyString)
    /\ pad 2 d = String g (String h EmptyString)
    /\ match_groups [re_m; re_d]
                    (String e (String f (String g (String h EmptyString))))
       = Some ([pad 2 m; pad 2 d], EmptyString)
    /\ int (pad 2 m) = Ok m /\ int (pad 2 d) = Ok d
    /\ has_slash (String e (String f (String g (String h EmptyString)))) = false.
Proof.
  intros Hm Hd.
  assert (Hall :
            forallb
              (fun m =>
                 forallb
                   (fun d =>
                      match pad 2 m, pad 2 d with
                      | String e (String f EmptyString),
                        String g (String h EmptyString) =>
                        match match_groups
                                [re_m; re_d]
                                (String e (String f (String g (String h EmptyString))))
                        with
                        | Some ([ms; ds], EmptyString) =>
                          String.eqb ms (pad 2 m) && String.eqb ds (pad 2 d)
                        | _ => false
                        end
                        && match int (pad 2 m), int (pad 2 d) with
                           | Ok vm, Ok vd => (vm =? m) && (vd =? d)
                           | _, _ => false
                           end
                        && negb (has_slash
                                   (String e (String f (String g (String h EmptyString)))))
                      | _, _ => false
                      end) (map Z.of_nat (seq 1 31)))
              (map Z.of_nat (seq 1 12)) = true)
    by (vm_compute; reflexivity).
  rewrite forallb_forall in Hall.
  assert (Hinm : In m (map Z.of_nat (seq 1 12))).
  { apply in_map_iff. exists (Z.to_nat m). split; [lia|]. apply in_seq. lia. }
  specialize (Hall m Hinm). rewrite forallb_forall in Hall.
  assert (Hind : In d (map Z.of_nat (seq 1 31))).
  { apply in_map_iff. exists (Z.to_nat d). split; [lia|]. apply in_seq. lia. }
  specialize (Hall d Hind).
  destruct (pad 2 m) as [|e [|f [|]]]; try discriminate.
  destruct (pad 2 d) as [|g [|h [|]]]; try discriminate.
  apply andb_prop in Hall as [Hall Hslash].
  apply andb_prop in Hall as [Hmatch Hint].
  destruct (match_groups _ _) as [[[|ms [|ds [|]]] [|]]|] eqn:Hmg; try discriminate.
  apply andb_prop in Hmatch as [Hms Hds].
  apply String.eqb_eq in Hms, Hds. subst ms ds.
  destruct (int (String e _)) as [vm|] eqn:Him; [|discriminate].
  destruct (int (String g _)) as [vd|] eqn:Hid; [|discriminate].
  apply andb_prop in Hint as [Hvm Hvd].
  apply Z.eqb_eq in Hvm, Hvd. subst vm vd.
  apply negb_true_iff in Hslash.
  exists e, f, g, h. repeat split; assumption || reflexivity.
Qed.

Lemma match_year_group a b c d gs rest :
  is_digit a = true -> is_digit b = true -> is_digit c = true -> is_digit d = true ->
  match_groups (re_Y :: gs) (String a (String b (String c (String d rest))))
  = match match_groups gs rest with
    | Some (txts, r) =>
      Some (String a (String b (String c (String d EmptyString))) :: txts, r)
    | None => None
    end.
Proof.
  intros Ha Hb Hc Hd. cbn [match_groups]. unfold re_Y, first_some.
  cbn [foldr fold_right match_classes]. rewrite Ha, Hb, Hc, Hd.
  destruct (match_groups gs rest) as [[txts r]|]; reflexivity.
Qed.

Lemma days_in_month_le_31 y m : 1 <= m <= 12 -> _days_in_month y m <= 31.
Proof.
  intros Hm. unfold _days_in_month.
  assert (Hcases : m = 1 \/ m = 2 \/ m = 3 \/ m = 4 \/ m = 5 \/ m = 6 \/ m = 7
                   \/ m = 8 \/ m = 9 \/ m = 10 \/ m = 11 \/ m = 12) by lia.
  destruct Hcases as [->|[->|[->|[->|[->|[->|[->|[->|[->|[->|[->| ->]]]]]]]]]]];
    destruct (_is_leap y); cbn; lia.
Qed.

(** The eight characters [strftime("%Y%m%d")] prints for a day from
    1000-01-01 on are what [strptime(.., "%Y%m%d")] reads back as that
    day. *)
Lemma strptime_strftime (now : datetime) :
  _ymd2ord 1000 1 1 <= dt_date now <= _MAXORDINAL ->
  exists c1 c2 c3 c4 c5 c6 c7 c8,
    strftime_Ymd EmptyString now
    = String c1 (String c2 (String c3 (String c4
        (String c5 (String c6 (String c7 (String c8 EmptyString)))))))
    /\ strptime_Ymd (strftime_Ymd EmptyString now) = Ok (dt_date now)
    /\ has_slash (strftime_Ymd EmptyString now) = false.
Proof.
  intros Hn. unfold strftime_Ymd.
  pose proof (ord2ymd_year_from_1000 _ Hn) as Hy.
  assert (Hn' : 1 <= dt_date now <= _MAXORDINAL).
  { change (_ymd2ord 1000 1 1) with 364878 in Hn. lia. }
  pose proof (ord2ymd_ymd2ord _ Hn') as Hrt.
  destruct (_ord2ymd (dt_date now)) as [[y m] d]. cbn [fst] in Hy.
  destruct Hrt as (Hchk & Hord & _).
  assert (Hmd : 1 <= m <= 12 /\ 1 <= d <= 31).
  { pose proof Hchk as Hc. unfold _check_date_fields in Hc.
    apply andb_prop in Hc as [Hc Hd2]. apply andb_prop in Hc as [Hc Hd1].
    apply andb_prop in Hc as [Hc Hm2]. apply andb_prop in Hc as [_ Hm1].
    apply Z.leb_le in Hd2, Hd1, Hm2, Hm1.
    pose proof (days_in_month_le_31 y m ltac:(lia)). lia. }
  destruct Hmd as [Hm Hd].
  destruct (pad4_year y Hy) as (a & b & c & dd & Hpy & Ha & Hb & Hc & Hdd & Hiy).
  destruct (pad2_month_day m d Hm Hd)
    as (e & f & g & h & Hpm & Hpd & Hmg & Him & Hid & Hsl).
  rewrite Hpy, Hpm, Hpd in *.
  exists a, b, c, dd, e, f, g, h.
  change (String a (String b (String c (String dd EmptyString)))
          +:+ EmptyString +:+ String e (String f EmptyString)
          +:+ EmptyString +:+ String g (String h EmptyString))
    with (String a (String b (String c (String dd
            (String e (String f (String g (String h EmptyString)))))))).
  split; [reflexivity|]. split.
  - unfold strptime_Ymd. rewrite match_year_group by assumption.
    rewrite Hmg, Hiy, Him, Hid.
    unfold mk_date. rewrite Hchk, Hord. reflexivity.
  - cbn [has_slash] in *.
    assert (Hnot : forall x, is_digit x = true -> Ascii.eqb x "/" = false).
    { intros x Hx. destruct x as [[] [] [] [] [] [] [] []];
        try reflexivity; discriminate Hx. }
    rewrite (Hnot a Ha), (Hnot b Hb), (Hnot c Hc), (Hnot dd Hdd). exact Hsl.
Qed.

End CalendarFacts.

(* ===================================================================== *)
(** ** The cache: names, ages and the sweep                                *)
(* ===================================================================== *)

Module CacheLifeFacts.
Import Calendar DateTime PyStr Strptime Runtime Plugin Observations Examples.
Import CacheFacts CalendarFacts.

Lemma removals_app_cache t1 t2 : removals (t1 ++ t2) = removals t1 ++ removals t2.
Proof. apply omap_app. Qed.

Lemma has_slash_app s t : has_slash (s +:+ t) = has_slash s || has_slash t.
Proof.
  induction s as [|c s IH]; [reflexivity|].
  change (has_slash (String c (s +:+ t)) = has_slash (String c s) || has_slash t).
  cbn [has_slash]. now rewrite IH, orb_assoc.
Qed.

Lemma take_app_8 c1 c2 c3 c4 c5 c6 c7 c8 t :
  take 8 (String c1 (String c2 (String c3 (String c4
            (String c5 (String c6 (String c7 (String c8 EmptyString)))))))
          +:+ t)
  = String c1 (String c2 (String c3 (String c4
      (String c5 (String c6 (String c7 (String c8 EmptyString))))))).
Proof. reflexivity. Qed.

Lemma entry_of_plain_name dir name :
  has_slash name = false ->
  entry_of dir (os_path_join dir name) = Some name.
Proof.
  intros Hs. rewrite join_no_slash by assumption. unfold entry_of.
  now rewrite <- append_assoc, strip_prefix_append, Hs.
Qed.

(** The name of the cache file of a day, as the sweep sees it. *)
Lemma news_file_name_facts d :
  _ymd2ord 1000 1 1 <= d <= _MAXORDINAL ->
  String.length (news_file_name d) = 13%nat
  /\ strptime_Ymd (take 8 (news_file_name d)) = Ok d
  /\ has_slash (news_file_name d) = false.
Proof.
  intros Hd. unfold news_file_name.
  destruct (strptime_strftime (DT d 0 0 0 0) Hd)
    as (c1 & c2 & c3 & c4 & c5 & c6 & c7 & c8 & Hs & Hp & Hsl).
  rewrite has_slash_app, Hsl. rewrite Hs in *.
  rewrite take_app_8. repeat split; try reflexivity. exact Hp.
Qed.

(** X1.  For a clock whose date lies between 1000-01-01 and
    9999-12-31, [_get_news_file_path] returns the path
    [news_path/YYYYMMDD.jpeg] of that date and its 13-character name;
    the first eight characters of the name parse back, with the
    sweep's [strptime(filename[:8], "%Y%m%d")], to that very date, and
    the path is listed under that name in the cache directory. *)
Theorem news_file_path_round_trip (E : env) (self : plugin) (w : world) :
  _ymd2ord 1000 1 1 <= dt_date (env_now E (w_tick w)) <= _MAXORDINAL ->
  exists path name,
    _get_news_file_path E self w
    = (Ok (path, name), tick w, [EvLog INFO (LogPath path)])
    /\ name = news_file_name (dt_date (env_now E (w_tick w)))
    /\ path = news_path self +:+ "/" +:+ name
    /\ String.length name = 13%nat
    /\ strptime_Ymd (take 8 name) = Ok (dt_date (env_now E (w_tick w)))
    /\ entry_of (news_path self) path = Some name.
Proof.
  intros Hd.
  destruct (news_file_name_facts _ Hd) as (Hlen & Hparse & Hsl).
  exists (os_path_join (news_path self)
                       (news_file_name (dt_date (env_now E (w_tick w))))),
         (news_file_name (dt_date (env_now E (w_tick w)))).
  split; [reflexivity|]. split; [reflexivity|].
  split; [now apply join_no_slash|]. split; [exact Hlen|].
  split; [exact Hparse|]. now apply entry_of_plain_name.
Qed.

Lemma news_file_path_round_trip_witness :
  exists path name,
    _get_news_file_path calm (__init__ (config_of "direct" 7)) empty_world
    = (Ok (path, name), tick empty_world, [EvLog INFO (LogPath path)])
    /\ name = news_file_name (dt_date (env_now calm (w_tick empty_world)))
    /\ path = news_path (__init__ (config_of "direct" 7)) +:+ "/" +:+ name
    /\ String.length name = 13%nat
    /\ strptime_Ymd (take 8 name) = Ok (dt_date (env_now calm (w_tick empty_world)))
    /\ entry_of (news_path (__init__ (config_of "direct" 7))) path = Some name.
Proof.
  apply (news_file_path_round_trip calm (__init__ (config_of "direct" 7)) empty_world).
  vm_compute. split; discriminate.
Defined.

(** The sweep on a day that does not change, in one formula. *)
Lemma sweep_result E self today save_days w :
  (forall k, dt_date (env_now E k) = today) ->
  0 < save_days -> cfg_save_days (self_config self) = save_days ->
  exists w' t,
    _delete_expired_news_files E self w = (Ok tt, w', t)
    /\ removals t
       = map (os_path_join (news_path self))
             (List.filter (expired today save_days)
                          (listdir (news_path self) (w_fs w)))
    /\ forall path,
        w_fs w' !! path
        = if swept E (news_path self) today save_days path
          then None else w_fs w !! path.
Proof.
  intros clock Hpos Hsd. unfold _delete_expired_news_files. rewrite Hsd.
  destruct (Z.leb_spec save_days 0) as [Hle|_]; [lia|].
  unfold bind at 1, os_listdir.
  destruct (sweep_run E self today save_days clock
                      (listdir (news_path self) (w_fs w)) w) as (w' & -> & Hfs).
  eexists w', _. split; [reflexivity|]. split.
  - cbn [app]. induction (List.filter _ _) as [|x l IH]; [reflexivity|].
    cbn. f_equal. exact IH.
  - intros path. rewrite Hfs.
    destruct (w_fs w !! path) eqn:Hl.
    + now rewrite (swept_existsb E self today save_days (w_fs w) path)
        by (rewrite Hl; eauto).
    + destruct (existsb _ _), (swept _ _ _ _ _); reflexivity.
Qed.

(** X2.  On a day [today] that does not change during the sweep and
    with [save_days > 0]: the cache file the plugin wrote on day [d]
    (from 1000-01-01 on), if the system lets it be unlinked, is gone
    after [_delete_expired_news_files] exactly when
    [today - d >= save_days]; otherwise it is as it was.  So today's
    file and files dated in the future always survive. *)
Theorem sweep_removes_by_age
        (E : env) (self : plugin) (today save_days d : Z) (w : world) :
  (forall k, dt_date (env_now E k) = today) ->
  0 < save_days -> cfg_save_days (self_config self) = save_days ->
  _ymd2ord 1000 1 1 <= d <= _MAXORDINAL ->
  env_remove E (os_path_join (news_path self) (news_file_name d)) = None ->
  exists w' t,
    _delete_expired_news_files E self w = (Ok tt, w', t)
    /\ w_fs w' !! os_path_join (news_path self) (news_file_name d)
       = (if today - d >=? save_days then None
          else w_fs w !! os_path_join (news_path self) (news_file_name d))
    /\ (today <= d ->
        w_fs w' !! os_path_join (news_path self) (news_file_name d)
        = w_fs w !! os_path_join (news_path self) (news_file_name d)).
Proof.
  intros clock Hpos Hsd Hd Hrm.
  destruct (sweep_result E self today save_days w clock Hpos Hsd)
    as (w' & t & Hrun & _ & Hfs).
  destruct (news_file_name_facts d Hd) as (_ & Hparse & Hsl).
  assert (Hsw : swept E (news_path self) today save_days
                      (os_path_join (news_path self) (news_file_name d))
                = (today - d >=? save_days)).
  { unfold swept, expired.
    rewrite (entry_of_plain_name _ _ Hsl), Hparse, Hrm. apply andb_true_r. }
  exists w', t. split; [exact Hrun|]. rewrite Hfs, Hsw. split; [reflexivity|].
  intros Hle. destruct (Z.geb_spec (today - d) save_days); [lia | reflexivity].
Qed.

Lemma sweep_removes_by_age_witness :
  exists w' t,
    _delete_expired_news_files calm (__init__ (config_of "direct" 7)) old_cache
    = (Ok tt, w', t)
    /\ w_fs w' !! os_path_join (news_path (__init__ (config_of "direct" 7)))
                               (news_file_name (_ymd2ord 2024 1 2))
       = (if _ymd2ord 2024 1 10 - _ymd2ord 2024 1 2 >=? 7 then None
          else w_fs old_cache
               !! os_path_join (news_path (__init__ (config_of "direct" 7)))
                               (news_file_name (_ymd2ord 2024 1 2)))
    /\ (_ymd2ord 2024 1 10 <= _ymd2ord 2024 1 2 ->
        w_fs w' !! os_path_join (news_path (__init__ (config_of "direct" 7)))
                                (news_file_name (_ymd2ord 2024 1 2))
        = w_fs old_cache
          !! os_path_join (news_path (__init__ (config_of "direct" 7)))
                          (news_file_name (_ymd2ord 2024 1 2))).
Proof.
  apply (sweep_removes_by_age calm (__init__ (config_of "direct" 7))
           (_ymd2ord 2024 1 10) 7 (_ymd2ord 2024 1 2) old_cache).
  - intros k. reflexivity.
  - lia.
  - reflexivity.
  - vm_compute. split; discriminate.
  - reflexivity.
Defined.

(** X3.  Sweeping twice on the same day leaves the cache as one sweep
    left it: the second run finds nothing more to remove than what the
    system refused the first time. *)
Theorem sweep_idempotent
        (E : env) (self : plugin) (today save_days : Z) (w : world) :
  (forall k, dt_date (env_now E k) = today) ->
  0 < save_days -> cfg_save_days (self_config self) = save_days ->
  exists w1 t1 w2 t2,
    _delete_expired_news_files E self w = (Ok tt, w1, t1)
    /\ _delete_expired_news_files E self w1 = (Ok tt, w2, t2)
    /\ w_fs w2 = w_fs w1
    /\ forall path, path ∈ removals t2 -> env_remove E path <> None.
Proof.
  intros clock Hpos Hsd.
  destruct (sweep_result E self today save_days w clock Hpos Hsd)
    as (w1 & t1 & Hrun1 & _ & Hfs1).
  destruct (sweep_result E self today save_days w1 clock Hpos Hsd)
    as (w2 & t2 & Hrun2 & Hrem2 & Hfs2).
  exists w1, t1, w2, t2. split; [exact Hrun1|]. split; [exact Hrun2|]. split.
  - apply map_eq. intros path. rewrite Hfs2, Hfs1.
    now destruct (swept _ _ _ _ _).
  - intros path Hin Hnone. rewrite Hrem2 in Hin.
    apply list_elem_of_fmap in Hin as (name & -> & Hname).
    apply list_elem_of_In, filter_In in Hname as [Hname Hexp].
    apply list_elem_of_In, listed_entry in Hname as [[x Hx] Hentry].
    specialize (Hfs1 (os_path_join (news_path self) name)).
    unfold swept in Hfs1. rewrite Hentry, Hexp, Hnone in Hfs1. cbn in Hfs1.
    congruence.
Qed.

Lemma sweep_idempotent_witness :
  exists w1 t1 w2 t2,
    _delete_expired_news_files read_only (__init__ (config_of "direct" 1)) old_cache
    = (Ok tt, w1, t1)
    /\ _delete_expired_news_files read_only (__init__ (config_of "direct" 1)) w1
       = (Ok tt, w2, t2)
    /\ w_fs w2 = w_fs w1
    /\ forall path, path ∈ removals t2 -> env_remove read_only path <> None.
Proof.
  apply (sweep_idempotent read_only (__init__ (config_of "direct" 1))
           (_ymd2ord 2024 1 10) 1 old_cache).
  - intros k. reflexivity.
  - lia.
  - reflexivity.
Defined.

(** X4.  After a sweep on a day that does not change, every file
    still listed in the cache directory is either not expired or one
    the system refused to unlink: when no removal is refused, no
    expired file is left. *)
Theorem sweep_leaves_no_expired_file
        (E : env) (self : plugin) (today save_days : Z) (w : world) :
  (forall k, dt_date (env_now E k) = today) ->
  0 < save_days -> cfg_save_days (self_config self) = save_days ->
  exists w' t,
    _delete_expired_news_files E self w = (Ok tt, w', t)
    /\ forall name,
        name ∈ listdir (news_path self) (w_fs w') ->
        expired today save_days name = true ->
        env_remove E (os_path_join (news_path self) name) <> None.
Proof.
  intros clock Hpos Hsd.
  destruct (sweep_result E self today save_days w clock Hpos Hsd)
    as (w' & t & Hrun & _ & Hfs).
  exists w', t. split; [exact Hrun|].
  intros name Hname Hexp Hnone.
  apply listed_entry in Hname as [[x Hx] Hentry].
  rewrite Hfs in Hx. unfold swept in Hx.
  rewrite Hentry, Hexp, Hnone in Hx. discriminate.
Qed.

Lemma sweep_leaves_no_expired_file_witness :
  exists w' t,
    _delete_expired_news_files calm (__init__ (config_of "direct" 7)) old_cache
    = (Ok tt, w', t)
    /\ forall name,
        name ∈ listdir (news_path (__init__ (config_of "direct" 7))) (w_fs w') ->
        expired (_ymd2ord 2024 1 10) 7 name = true ->
        env_remove calm (os_path_join (news_path (__init__ (config_of "direct" 7))) name)
        <> None.
Proof.
  apply (sweep_leaves_no_expired_file calm (__init__ (config_of "direct" 7))
           (_ymd2ord 2024 1 10) 7 old_cache).
  - intros k. reflexivity.
  - lia.
  - reflexivity.
Defined.

(** A name that does not begin with four digits is not a date. *)
Lemma no_year_no_date name :
  starts_with_year name = false ->
  exists e, strptime_Ymd (take 8 name) = Raise e.
Proof.
  intros H. unfold strptime_Ymd.
  assert (Hnone : match_groups [re_Y; re_m; re_d] (take 8 name) = None).
  { destruct name as [|a [|b [|c [|d rest]]]]; try reflexivity.
    - cbn. now destruct (is_digit a).
    - cbn. now destruct (is_digit a), (is_digit b).
    - cbn. now destruct (is_digit a), (is_digit b), (is_digit c).
    - cbn [starts_with_year] in H.
      cbn [take match_groups]. unfold re_Y at 1, first_some.
      cbn [foldr fold_right match_classes].
      destruct (is_digit a); [|reflexivity].
      destruct (is_digit b); [|reflexivity].
      destruct (is_digit c); [|reflexivity].
      destruct (is_digit d); [discriminate | reflexivity]. }
  rewrite Hnone. eauto.
Qed.

(** One file, on any day and in any environment. *)
Lemma delete_if_expired_any E self save_days name w :
  exists w' t,
    delete_if_expired E self save_days name w = (Ok tt, w', t)
    /\ (t = [] \/ t = [EvRemove (os_path_join (news_path self) name)])
    /\ (w_fs w' = w_fs w
        \/ (t = [EvRemove (os_path_join (news_path self) name)]
            /\ w_fs w' = delete (os_path_join (news_path self) name) (w_fs w)))
    /\ (forall e, strptime_Ymd (take 8 name) = Raise e -> t = []).
Proof.
  unfold delete_if_expired, try_except, bind, lift, date_today, datetime_now, ret.
  destruct (strptime_Ymd (take 8 name)) as [file_date|e]; cbn.
  2: { do 2 eexists. split; [reflexivity|]. auto. }
  destruct (_ >=? save_days); cbn.
  2: { do 2 eexists. split; [reflexivity|]. split; [auto|]. split; [auto|]. discriminate. }
  unfold os_remove; cbn.
  destruct (w_fs w !! _) eqn:Hl; [destruct (env_remove E _)|]; cbn;
    do 2 eexists; (split; [reflexivity|]); (split; [auto|]);
    (split; [auto | discriminate]).
Qed.

Lemma sweep_any E self save_days names w :
  exists w' t,
    for_each (delete_if_expired E self save_days) names w = (Ok tt, w', t)
    /\ (forall path, w_fs w' !! path = None \/ w_fs w' !! path = w_fs w !! path)
    /\ (forall path,
           path ∈ removals t ->
           exists name file_date,
             name ∈ names /\ path = os_path_join (news_path self) name
             /\ strptime_Ymd (take 8 name) = Ok file_date)
    /\ (forall path, path ∉ removals t -> w_fs w' !! path = w_fs w !! path)
    /\ Forall (fun ev => exists p, ev = EvRemove p) t.
Proof.
  revert w; induction names as [|name names IH]; intros w.
  - exists w, []. split; [reflexivity|]. split; [auto|]. split.
    + intros path Hin. cbn in Hin. now apply elem_of_nil in Hin.
    + split; [auto | constructor].
  - cbn [for_each]. unfold bind.
    destruct (delete_if_expired_any E self save_days name w)
      as (w1 & t1 & -> & Ht1 & Hfs1 & Hraise).
    destruct (IH w1) as (w2 & t2 & -> & Hmono & Hrem & Hkeep & Hev).
    exists w2, (t1 ++ t2). split; [reflexivity|].
    assert (Hstep : forall path, w_fs w1 !! path = None
                                 \/ w_fs w1 !! path = w_fs w !! path).
    { intros path. destruct Hfs1 as [->|[_ ->]]; [auto|].
      destruct (decide (os_path_join (news_path self) name = path)) as [<-|Hne].
      - left. apply lookup_delete_eq.
      - right. now apply lookup_delete_ne. }
    split; [|split; [|split]].
    + intros path. destruct (Hmono path) as [H|H]; [auto|].
      rewrite H. apply Hstep.
    + intros path Hin. rewrite removals_app_cache in Hin.
      apply elem_of_app in Hin as [Hin|Hin].
      * destruct Ht1 as [->| ->]; cbn in Hin; [now apply elem_of_nil in Hin|].
        apply list_elem_of_singleton in Hin as ->.
        destruct (strptime_Ymd (take 8 name)) as [file_date|e] eqn:Hp.
        -- exists name, file_date. split; [left|]; auto.
        -- specialize (Hraise e eq_refl). discriminate.
      * destruct (Hrem path Hin) as (n & fd & Hn & -> & Hp).
        exists n, fd. split; [right; exact Hn | auto].
    + intros path Hnot. rewrite removals_app_cache in Hnot.
      apply not_elem_of_app in Hnot as [Hn1 Hn2].
      rewrite (Hkeep path Hn2).
      destruct Hfs1 as [->|[-> ->]]; [reflexivity|].
      apply lookup_delete_ne. intros <-. apply Hn1. cbn. left.
    + apply Forall_app. split; [|exact Hev].
      destruct Ht1 as [->| ->]; repeat constructor. eauto.
Qed.

Lemma sweep_any_run E self w :
  exists r w' t,
    _delete_expired_news_files E self w = (r, w', t)
    /\ (forall path, w_fs w' !! path = None \/ w_fs w' !! path = w_fs w !! path)
    /\ (forall path,
           path ∈ removals t ->
           exists name file_date,
             name ∈ listdir (news_path self) (w_fs w)
             /\ path = os_path_join (news_path self) name
             /\ strptime_Ymd (take 8 name) = Ok file_date)
    /\ (forall path, path ∉ removals t -> w_fs w' !! path = w_fs w !! path)
    /\ Forall (fun ev => exists p, ev = EvRemove p) t.
Proof.
  unfold _delete_expired_news_files.
  destruct (cfg_save_days (self_config self) <=? 0).
  - exists (Raise (ValueError "保存天数不能小于0")), w, [].
    split; [reflexivity|]. split; [auto|]. split.
    + intros path Hin. cbn in Hin. now apply elem_of_nil in Hin.
    + split; [auto | constructor].
  - unfold bind at 1, os_listdir.
    destruct (sweep_any E self (cfg_save_days (self_config self))
                        (listdir (news_path self) (w_fs w)) w)
      as (w' & t & -> & H1 & H2 & H3 & H4).
    exists (Ok tt), w', t. auto.
Qed.

(** X5.  Whatever the configuration, the clock and the environment,
    [_delete_expired_news_files] only ever unlinks: its events are
    [os.remove] calls and nothing else; every file is afterwards either
    gone or exactly as it was; and a path that is not a plain file
    name directly under the cache directory is never touched. *)
Theorem sweep_only_removes (E : env) (self : plugin) (w : world) :
  exists r w' t,
    _delete_expired_news_files E self w = (r, w', t)
    /\ Forall (fun ev => exists p, ev = EvRemove p) t
    /\ (forall path, w_fs w' !! path = None \/ w_fs w' !! path = w_fs w !! path)
    /\ (forall path,
           entry_of (news_path self) path = None ->
           w_fs w' !! path = w_fs w !! path).
Proof.
  destruct (sweep_any_run E self w) as (r & w' & t & Hrun & Hmono & Hrem & Hkeep & Hev).
  exists r, w', t. split; [exact Hrun|]. split; [exact Hev|]. split; [exact Hmono|].
  intros path Hout. apply Hkeep. intros Hin.
  destruct (Hrem path Hin) as (name & fd & Hname & -> & _).
  apply listed_entry in Hname as [_ Hentry]. congruence.
Qed.

(** X6.  A listed file whose name is ASCII in its first four bytes
    and does not begin with four digits (a note, a dot-file, an image
    under another naming scheme) is never handed to [os.remove] and
    is still there, unchanged, after the sweep, whatever the
    retention setting, the clock, the environment and the other
    names in the directory.  A name that begins with the digits of
    another script is outside this statement: [strptime] reads those
    as a year. *)
Theorem sweep_spares_undated_names
        (E : env) (self : plugin) (w : world) (name : string) :
  name ∈ listdir (news_path self) (w_fs w) ->
  isascii (take 4 name) = true ->
  starts_with_year name = false ->
  exists r w' t,
    _delete_expired_news_files E self w = (r, w', t)
    /\ (os_path_join (news_path self) name ∉ removals t)
    /\ w_fs w' !! os_path_join (news_path self) name
       = w_fs w !! os_path_join (news_path self) name
    /\ is_Some (w_fs w' !! os_path_join (news_path self) name).
Proof.
  intros Hname _ Hny.
  destruct (sweep_any_run E self w) as (r & w' & t & Hrun & _ & Hrem & Hkeep & _).
  assert (Hnot : os_path_join (news_path self) name ∉ removals t).
  { intros Hin. destruct (Hrem _ Hin) as (name' & fd & Hname' & Heq & Hparse).
    pose proof (listed_entry self _ _ Hname) as [_ He].
    pose proof (listed_entry self _ _ Hname') as [_ He'].
    rewrite Heq, He' in He. injection He as ->.
    destruct (no_year_no_date name Hny) as [e He]. congruence. }
  exists r, w', t. split; [exact Hrun|]. split; [exact Hnot|].
  rewrite (Hkeep _ Hnot). split; [reflexivity|].
  now apply (listed_entry self) in Hname as [Hsome _].
Qed.

Lemma sweep_spares_undated_names_witness :
  exists r w' t,
    _delete_expired_news_files calm (__init__ (config_of "direct" 1)) old_cache
    = (r, w', t)
    /\ (os_path_join (news_path (__init__ (config_of "direct" 1))) "notes.txt"
        ∉ removals t)
    /\ w_fs w' !! os_path_join (news_path (__init__ (config_of "direct" 1))) "notes.txt"
       = w_fs old_cache
         !! os_path_join (news_path (__init__ (config_of "direct" 1))) "notes.txt"
    /\ is_Some (w_fs w'
                !! os_path_join (news_path (__init__ (config_of "direct" 1))) "notes.txt").
Proof.
  apply (sweep_spares_undated_names calm (__init__ (config_of "direct" 1)) old_cache
           "notes.txt").
  - vm_compute. apply list_elem_of_In. cbn. auto.
  - reflexivity.
  - reflexivity.
Defined.

End CacheLifeFacts.

(* ===================================================================== *)
(** ** More on the downloader and the read path                            *)
(* ===================================================================== *)

Module DownloadLifeFacts.
Import Calendar DateTime PyStr Json Runtime Plugin Observations Examples.
Import DownloaderFacts ReadPathFacts BroadcastFacts.
Local Open Scope py_scope.

(** An attempt, for any [self]: at most two requests, no file touched
    but [path], and a [return] only of [(path, True)] with the file
    in place. *)
Lemma attempt_footprint E self path date timeout w :
  exists r w' t,
    download_attempt E self path date timeout w = (r, w', t)
    /\ (length (requests t) <= 2)%nat
    /\ sleeps t = []
    /\ (forall p, p <> path -> w_fs w' !! p = w_fs w !! p)
    /\ (forall x, r = Ok (Returned x) ->
                  x = (path, true) /\ is_Some (w_fs w' !! path)).
Proof.
  unfold download_attempt.
  repeat case_match; unfold_run;
    repeat (cbv beta iota zeta; case_match); simplify_eq;
    do 3 eexists; (split; [reflexivity|]);
    (split; [cbn; lia|]); (split; [reflexivity|]); split;
    try (intros p Hp; cbn; rewrite ?lookup_insert_ne by congruence; reflexivity);
    try (intros x Hx; first [discriminate Hx
                            | injection Hx as <-; split; [reflexivity|];
                              cbn; rewrite lookup_insert_eq; eauto]).
Qed.

Lemma download_loop_footprint E self path date ks w :
  exists r w' t,
    download_loop E self path date 3 5 ks w = (Ok r, w', t)
    /\ (length (requests t) <= 2 * length ks)%nat
    /\ (length (sleeps t)
        <= length (List.filter (fun k : Z => negb (Z.eqb k 2)) ks))%nat
    /\ (forall p, p <> path -> w_fs w' !! p = w_fs w !! p)
    /\ (forall x, r = Some (x, true) -> x = path /\ is_Some (w_fs w' !! path)).
Proof.
  revert w; induction ks as [|k ks IH]; intros w.
  - do 3 eexists. split; [reflexivity|]. cbn. repeat split; auto; discriminate.
  - rewrite download_loop_cons.
    destruct (attempt_footprint E self path date 5 w)
      as (r1 & w1 & t1 & -> & Hq1 & Hsl1 & Hfs1 & Hret1).
    destruct (IH w1) as (r2 & w2 & t2 & H2 & Hq2 & Hsl2 & Hfs2 & Hret2).
    cbn [List.filter length].
    destruct r1 as [[x|]|e].
    + destruct (Hret1 x eq_refl) as [-> Hsome].
      do 3 eexists. split; [reflexivity|]. rewrite Hsl1.
      split; [lia|]. split; [cbn; lia|]. split; [exact Hfs1|].
      intros ? [= <-]. auto.
    + rewrite H2. do 3 eexists. split; [reflexivity|].
      rewrite requests_app, sleeps_app, !length_app, Hsl1.
      split; [lia|]. split; [destruct (negb _); cbn; lia|].
      split; [intros p Hp; now rewrite Hfs2, Hfs1|]. exact Hret2.
    + destruct (Z.eqb_spec k 2) as [->|Hk]; cbn [negb].
      * do 3 eexists. split; [reflexivity|].
        rewrite requests_app, sleeps_app, !length_app, Hsl1.
        split; [cbn; lia|]. split; [cbn; lia|]. split; [exact Hfs1|]. discriminate.
      * rewrite H2. do 3 eexists. split; [reflexivity|].
        rewrite !requests_app, !sleeps_app, !length_app, Hsl1.
        split; [cbn; lia|]. split; [cbn; lia|].
        split; [intros p Hp; now rewrite Hfs2, Hfs1|]. exact Hret2.
Qed.

Lemma download_news_touches_only_path_aux E self path w :
  exists r w' t,
    _download_news E self path w = (Ok r, w', t)
    /\ (forall x, r = Some (x, true) -> x = path /\ is_Some (w_fs w' !! path)).
Proof.
  rewrite download_news_unfold.
  destruct (download_loop_footprint
              E self path (strftime_Ymd "-" (env_now E (w_tick w))) [0; 1; 2] (tick w))
    as (r & w' & t & Hrun & _ & _ & _ & Hret).
  exists r, w', t. auto.
Qed.

(** X7.  [_download_news], for any plugin object and any environment:
    it never raises; no file other than [path] is created, changed or
    removed; and when it returns a pair whose flag is [True], the
    first component is [path] and the file [path] exists. *)
Theorem download_news_touches_only_path
        (E : env) (self : plugin) (path : string) (w : world) :
  exists r w' t,
    _download_news E self path w = (Ok r, w', t)
    /\ (forall p, p <> path -> w_fs w' !! p = w_fs w !! p)
    /\ (forall x, r = Some (x, true) -> x = path /\ is_Some (w_fs w' !! path)).
Proof.
  rewrite download_news_unfold.
  destruct (download_loop_footprint
              E self path (strftime_Ymd "-" (env_now E (w_tick w))) [0; 1; 2] (tick w))
    as (r & w' & t & Hrun & _ & _ & Hfs & Hret).
  exists r, w', t. auto.
Qed.

(** X8.  One call of [_download_news] makes at most six requests and
    pauses at most twice, one second each time, whatever the mode and
    the environment. *)
Theorem download_news_bounded
        (E : env) (self : plugin) (path : string) (w : world) :
  exists r w' t,
    _download_news E self path w = (Ok r, w', t)
    /\ (length (requests t) <= 6)%nat
    /\ (length (sleeps t) <= 2)%nat
    /\ Forall (eq (seconds 1)) (sleeps t).
Proof.
  rewrite download_news_unfold.
  destruct (download_loop_footprint
              E self path (strftime_Ymd "-" (env_now E (w_tick w))) [0; 1; 2] (tick w))
    as (r & w' & t & Hrun & Hq & Hsl & _ & _).
  destruct (download_loop_quiet
              E self path (strftime_Ymd "-" (env_now E (w_tick w))) [0; 1; 2] (tick w))
    as (r' & w'' & t' & Hrun' & _ & Hone & _).
  rewrite Hrun in Hrun'. injection Hrun' as <- <- <-.
  exists r, w', t. split; [exact Hrun|]. cbn in Hq, Hsl. auto.
Qed.

(** In the proxy mode every attempt makes exactly one request, to the
    URL built from the date. *)
Lemma vikiboss_attempt E cfg path date w :
  news_type (__init__ cfg) = "vikiboss_api" ->
  exists r w' t,
    download_attempt E (__init__ cfg) path date 5 w = (r, w', t)
    /\ attempts t = 1%nat
    /\ requests t = ["https://60s-api.viki.moe/v2/60s?date=" +:+ date
                     +:+ "&encoding=image-proxy"].
Proof.
  intros Hnt. unfold download_attempt. rewrite Hnt.
  cbn [String.eqb Ascii.eqb Bool.eqb]. unfold_run.
  repeat (cbv beta iota zeta; case_match); simplify_eq;
    do 3 eexists; (split; [reflexivity|]); split; reflexivity.
Qed.

Lemma vikiboss_loop E cfg path date ks w :
  news_type (__init__ cfg) = "vikiboss_api" ->
  exists r w' t,
    download_loop E (__init__ cfg) path date 3 5 ks w = (Ok r, w', t)
    /\ (attempts t <= length ks)%nat
    /\ (ks <> [] -> 1 <= attempts t)%nat
    /\ requests t
       = repeat ("https://60s-api.viki.moe/v2/60s?date=" +:+ date
                 +:+ "&encoding=image-proxy") (attempts t).
Proof.
  intros Hnt. revert w; induction ks as [|k ks IH]; intros w.
  - do 3 eexists. split; [reflexivity|]. cbn. repeat split; auto. congruence.
  - rewrite download_loop_cons.
    destruct (vikiboss_attempt E cfg path date w Hnt) as (r1 & w1 & t1 & -> & Ha1 & Hq1).
    destruct (IH w1) as (r2 & w2 & t2 & H2 & Ha2 & _ & Hq2).
    destruct r1 as [[x|]|e].
    + do 3 eexists. split; [reflexivity|]. rewrite Ha1, Hq1. cbn.
      repeat split; auto; lia.
    + rewrite H2. do 3 eexists. split; [reflexivity|].
      rewrite attempts_app, requests_app, Ha1, Hq1, Hq2. cbn.
      repeat split; auto; lia.
    + destruct (k =? 2).
      * do 3 eexists. split; [reflexivity|].
        rewrite attempts_app, requests_app, Ha1, Hq1. cbn.
        repeat split; auto; lia.
      * rewrite H2. do 3 eexists. split; [reflexivity|].
        rewrite !attempts_app, !requests_app, Ha1, Hq1, Hq2. cbn.
        repeat split; auto; lia.
Qed.

(** X9.  In the [vikiboss_api] mode every request of one call of
    [_download_news] goes to the same URL: the fixed address of the
    public API with the date the clock showed when the call started,
    whatever [vikiboss_api] the configuration holds and even when a
    retry happens after midnight.  There are between one and three such
    requests, one per attempt. *)
Theorem vikiboss_requests_one_dated_url
        (E : env) (cfg : config) (path : string) (w : world) :
  news_type (__init__ cfg) = "vikiboss_api" ->
  exists r w' t,
    _download_news E (__init__ cfg) path w = (Ok r, w', t)
    /\ (1 <= attempts t <= 3)%nat
    /\ requests t
       = repeat ("https://60s-api.viki.moe/v2/60s?date="
                 +:+ strftime_Ymd "-" (env_now E (w_tick w))
                 +:+ "&encoding=image-proxy") (attempts t).
Proof.
  intros Hnt. rewrite download_news_unfold.
  destruct (vikiboss_loop E cfg path (strftime_Ymd "-" (env_now E (w_tick w)))
                          [0; 1; 2] (tick w) Hnt)
    as (r & w' & t & Hrun & Hle & Hge & Hq).
  exists r, w', t. split; [exact Hrun|]. split; [|exact Hq].
  cbn in Hle. split; [apply Hge; discriminate | exact Hle].
Qed.

Lemma vikiboss_requests_one_dated_url_witness :
  exists r w' t,
    _download_news flaky (__init__ (config_of "vikiboss_api" 7)) today_path empty_world
    = (Ok r, w', t)
    /\ (1 <= attempts t <= 3)%nat
    /\ requests t
       = repeat ("https://60s-api.viki.moe/v2/60s?date="
                 +:+ strftime_Ymd "-" (env_now flaky (w_tick empty_world))
                 +:+ "&encoding=image-proxy") (attempts t).
Proof.
  apply (vikiboss_requests_one_dated_url flaky (config_of "vikiboss_api" 7)
           today_path empty_world).
  reflexivity.
Defined.

Lemma strftime_same_day sep (a b : datetime) :
  dt_date a = dt_date b -> strftime_Ymd sep a = strftime_Ymd sep b.
Proof. intros H. unfold strftime_Ymd. now rewrite H. Qed.

(** X10.  Once [_get_image_news] has returned [(p, True)], a second
    call on the same day returns [(p, True)] again from the cache: its
    only event is the log record of the path; it requests nothing. *)
Theorem get_image_news_cached_after_success
        (E : env) (self : plugin) (w w1 : world) (p : string) (t1 : list event) :
  _get_image_news E self w = (Ok (Some (p, true)), w1, t1) ->
  dt_date (env_now E (w_tick w1)) = dt_date (env_now E (w_tick w)) ->
  _get_image_news E self w1
  = (Ok (Some (p, true)), tick w1, [EvLog INFO (LogPath p)]).
Proof.
  intros Hfirst Hday.
  rewrite get_image_news_unfold in Hfirst. cbv zeta in Hfirst.
  rewrite get_image_news_unfold. cbv zeta.
  rewrite (strftime_same_day EmptyString _ _ Hday).
  set (path := os_path_join (news_path self)
                            (strftime_Ymd EmptyString (env_now E (w_tick w)) +:+ ".jpeg"))
    in *.
  assert (Hp : p = path /\ is_Some (w_fs w1 !! path)).
  { destruct (bool_decide (is_Some (w_fs w !! path))) eqn:Hfound.
    - injection Hfirst as <- <- <-. split; [reflexivity|].
      now apply bool_decide_eq_true in Hfound.
    - destruct (download_news_touches_only_path_aux E self path (tick w))
        as (r & w' & t & Hrun & Hret).
      rewrite Hrun in Hfirst. injection Hfirst as -> <- <-.
      now apply Hret. }
  destruct Hp as [-> Hsome].
  now rewrite bool_decide_eq_true_2.
Qed.

Lemma get_image_news_cached_after_success_witness :
  _get_image_news calm (__init__ (config_of "direct" 7))
                  (snd (fst (_get_image_news calm (__init__ (config_of "direct" 7))
                                             empty_world)))
  = (Ok (Some (today_path, true)),
     tick (snd (fst (_get_image_news calm (__init__ (config_of "direct" 7))
                                     empty_world))),
     [EvLog INFO (LogPath today_path)]).
Proof.
  apply (get_image_news_cached_after_success
           calm (__init__ (config_of "direct" 7)) empty_world _ today_path
           (snd (_get_image_news calm (__init__ (config_of "direct" 7)) empty_world))).
  - vm_compute. reflexivity.
  - reflexivity.
Defined.

(** With today's file in the cache and the day not changing, one pass
    of the broadcast loop sends the cached path and touches nothing. *)
Lemma push_to_target_from_cache E self today target content w :
  (forall k, dt_date (env_now E k) = today) ->
  w_fs w !! os_path_join (news_path self) (news_file_name today) = Some content ->
  exists w' seg,
    push_to_target E self target w = (Ok tt, w', seg)
    /\ w_fs w' = w_fs w
    /\ requests seg = []
    /\ omap (fun ev => match ev with
                       | EvSend g chain => Some (g, chain)
                       | _ => None
                       end) seg
       = [(target, Chain "每日新闻播报："
                         (os_path_join (news_path self) (news_file_name today)))].
Proof.
  intros clock Hfile.
  unfold push_to_target, try_except. unfold bind at 1.
  rewrite get_image_news_unfold. cbv zeta.
  assert (Hname : strftime_Ymd EmptyString (env_now E (w_tick w)) +:+ ".jpeg"
                  = news_file_name today).
  { unfold news_file_name. f_equal. apply strftime_same_day. apply clock. }
  rewrite Hname, Hfile, bool_decide_eq_true_2 by eauto.
  unfold_run. cbv beta iota zeta delta [tick]. cbn [w_tick w_fs].
  destruct (env_send E _ target _);
    do 2 eexists; (split; [reflexivity|]); repeat split; reflexivity.
Qed.

(** X11.  When today's image is already cached and the day does not
    change, [_send_daily_news_to_groups] requests nothing and leaves
    the cache as it is; it calls [send_message] once for every
    configured target, in configured order (duplicates included), each
    time with the caption and the cached path, whether or not earlier
    sends failed. *)
Theorem broadcast_from_cache
        (E : env) (self : plugin) (today : Z) (content : string) (w : world) :
  (forall k, dt_date (env_now E k) = today) ->
  w_fs w !! os_path_join (news_path self) (news_file_name today) = Some content ->
  exists w' t,
    _send_daily_news_to_groups E self w = (Ok tt, w', t)
    /\ w_fs w' = w_fs w
    /\ requests t = []
    /\ omap (fun ev => match ev with
                       | EvSend g chain => Some (g, chain)
                       | _ => None
                       end) t
       = map (fun g => (g, Chain "每日新闻播报："
                                (os_path_join (news_path self) (news_file_name today))))
             (cfg_groups (self_config self)).
Proof.
  intros clock. unfold _send_daily_news_to_groups.
  generalize (cfg_groups (self_config self)) as targets.
  intros targets. revert w.
  induction targets as [|target targets IH]; intros w Hfile.
  - exists w, []. repeat split; reflexivity.
  - cbn [for_each]. unfold bind.
    destruct (push_to_target_from_cache E self today target content w clock Hfile)
      as (w1 & seg & -> & Hfs1 & Hq1 & Hs1).
    destruct (IH w1) as (w2 & t2 & -> & Hfs2 & Hq2 & Hs2).
    { now rewrite Hfs1. }
    exists w2, (seg ++ t2). split; [reflexivity|].
    split; [congruence|]. split.
    + now rewrite requests_app, Hq1, Hq2.
    + rewrite omap_app, Hs1, Hs2. reflexivity.
Qed.

Lemma broadcast_from_cache_witness :
  exists w' t,
    _send_daily_news_to_groups group_a_unreachable (__init__ (config_of "direct" 7))
                               warm_cache = (Ok tt, w', t)
    /\ w_fs w' = w_fs warm_cache
    /\ requests t = []
    /\ omap (fun ev => match ev with
                       | EvSend g chain => Some (g, chain)
                       | _ => None
                       end) t
       = map (fun g => (g, Chain "每日新闻播报："
                                (os_path_join
                                   (news_path (__init__ (config_of "direct" 7)))
                                   (news_file_name (_ymd2ord 2024 1 10)))))
             (cfg_groups (self_config (__init__ (config_of "direct" 7)))).
Proof.
  apply (broadcast_from_cache group_a_unreachable (__init__ (config_of "direct" 7))
           (_ymd2ord 2024 1 10) "IMG" warm_cache).
  - intros k. reflexivity.
  - vm_compute. reflexivity.
Defined.

(** In a known mode the downloader returns [(path, True)] or the error
    text with [False]. *)
Lemma download_news_known_outcome E cfg path w :
  is_known_type (news_type (__init__ cfg)) = true ->
  exists r w' t,
    _download_news E (__init__ cfg) path w = (Ok (Some r), w', t)
    /\ (r = (path, true)
        \/ exists e, r = ("接口报错，请联系管理员:" +:+ exn_str e, false)).
Proof.
  intros Hk. rewrite download_news_unfold.
  set (date := strftime_Ymd "-" (env_now E (w_tick w))).
  rewrite download_loop_cons.
  destruct (attempt_shape E cfg path date 5 (tick w) Hk)
    as (r1 & w1 & t1 & -> & _ & _ & _ & Hn1 & Hr1).
  destruct r1 as [[x1|]|e1]; [|congruence|].
  { destruct (Hr1 x1 eq_refl) as [-> _]. eauto 6. }
  change (0 =? 2) with false. cbv iota. rewrite download_loop_cons.
  destruct (attempt_shape E cfg path date 5 w1 Hk)
    as (r2 & w2 & t2 & -> & _ & _ & _ & Hn2 & Hr2).
  destruct r2 as [[x2|]|e2]; [|congruence|].
  { destruct (Hr2 x2 eq_refl) as [-> _]. eauto 6. }
  change (1 =? 2) with false. cbv iota. rewrite download_loop_cons.
  destruct (attempt_shape E cfg path date 5 w2 Hk)
    as (r3 & w3 & t3 & -> & _ & _ & _ & Hn3 & Hr3).
  destruct r3 as [[x3|]|e3]; [|congruence|].
  { destruct (Hr3 x3 eq_refl) as [-> _]. eauto 6. }
  change (2 =? 2) with true. cbv iota. eauto 8.
Qed.

(** X12.  In a known mode the handlers [daily_60s_news] and
    [push_image_news] never raise.  What they hand to [image_result]
    is today's cache path when the image is cached or was downloaded,
    and otherwise the downloader's error text: the success flag is
    dropped, so a failed download is answered with an image whose
    path is the error message. *)
Theorem push_image_news_yields_path_or_error_text
        (E : env) (cfg : config) (w : world) :
  is_known_type (news_type (__init__ cfg)) = true ->
  exists s w' t,
    push_image_news E (__init__ cfg) w = (Ok s, w', t)
    /\ (s = os_path_join (news_path (__init__ cfg))
                         (strftime_Ymd EmptyString (env_now E (w_tick w)) +:+ ".jpeg")
        \/ exists e, s = "接口报错，请联系管理员:" +:+ exn_str e).
Proof.
  intros Hk. unfold push_image_news. unfold bind at 1.
  rewrite get_image_news_unfold. cbv zeta.
  destruct (bool_decide _).
  - unfold_run. do 3 eexists. split; [reflexivity|]. left. reflexivity.
  - destruct (download_news_known_outcome
                E cfg
                (os_path_join (news_path (__init__ cfg))
                              (strftime_Ymd EmptyString (env_now E (w_tick w))
                               +:+ ".jpeg"))
                (tick w) Hk) as (r & w' & t & -> & Hr).
    destruct r as [s b]. unfold_run. do 3 eexists. split; [reflexivity|].
    destruct Hr as [[= -> ->] | (e & [= -> ->])]; [left | right]; eauto.
Qed.

Lemma push_image_news_yields_path_or_error_text_witness :
  exists s w' t,
    push_image_news down (__init__ (config_of "direct" 7)) empty_world = (Ok s, w', t)
    /\ (s = os_path_join (news_path (__init__ (config_of "direct" 7)))
                         (strftime_Ymd EmptyString (env_now down (w_tick empty_world))
                          +:+ ".jpeg")
        \/ exists e, s = "接口报错，请联系管理员:" +:+ exn_str e).
Proof.
  apply (push_image_news_yields_path_or_error_text down (config_of "direct" 7)
           empty_world).
  reflexivity.
Defined.

(** A failed download answered with the error text in place of a
    path. *)
Example image_command_when_down :
  fst (fst (push_image_news down (__init__ (config_of "direct" 7)) empty_world))
  = Ok "接口报错，请联系管理员:API返回错误代码: 500".
Proof. vm_compute. reflexivity. Qed.

(** X13.  The handlers [push_news] and [update_news_files] never
    raise and always yield their fixed success message, whatever
    happened: [push_news] even when every delivery failed, and
    [update_news_files] even when the download gave up or the mode is
    unknown. *)
Theorem admin_handlers_always_report_success
        (E : env) (self : plugin) (sender_name : string) (w : world) :
  (exists w' t,
      push_news E self sender_name w
      = (Ok (sender_name +:+ ":已成功向群组推送新闻"), w', t))
  /\ (exists w' t,
         update_news_files E self sender_name w
         = (Ok (sender_name +:+ ":今日新闻文件已更新..."), w', t)).
Proof.
  split.
  - unfold push_news, bind, _send_daily_news_to_groups.
    destruct (for_each_targets E self (cfg_groups (self_config self)) w)
      as (w' & segs & -> & _).
    do 2 eexists. reflexivity.
  - unfold update_news_files, bind at 1, _update_news_files, _get_news_file_path.
    cbv beta iota zeta delta [bind datetime_now logger_info emit ret].
    destruct (download_news_never_raises
                E self
                (os_path_join (news_path self)
                              (strftime_Ymd EmptyString (env_now E (w_tick w))
                               +:+ ".jpeg"))
                (tick w)) as (r & w' & t & ->).
    do 2 eexists. reflexivity.
Qed.

(** Both deliveries fail and the command still reports success. *)
Example push_command_when_unreachable :
  fst (fst (push_news (Env (fun _ => jan10_080001)
                           (fun _ _ => Ok (Response 200 (Ok "IMG") no_json))
                           (fun _ _ => Written)
                           (fun _ => None)
                           (fun _ _ _ => Some (Exn "Exception" "send failed")))
                      (__init__ (config_of "direct" 7)) "admin" warm_cache))
  = Ok "admin:已成功向群组推送新闻".
Proof. vm_compute. reflexivity. Qed.

End DownloadLifeFacts.

(* ===================================================================== *)
(** ** More on the schedule                                                *)
(* ===================================================================== *)

Module ScheduleLifeFacts.
Import Calendar DateTime PyStr Strptime Json Runtime Plugin Observations Examples.
Import DateTimeFacts SchedulerFacts DownloaderFacts BroadcastFacts LoopFacts.
Local Open Scope py_scope.

(** Adding a duration that leads to a whole minute gives the datetime
    of that minute. *)
Lemma dt_add_exact x td day h m :
  1 <= day <= _MAXORDINAL -> 0 <= h < 24 -> 0 <= m < 60 ->
  dt_micros x + td = dt_micros (DT day h m 0 0) ->
  dt_add x td = Ok (DT day h m 0 0).
Proof.
  intros Hday Hh Hm Heq. unfold dt_add. rewrite Heq.
  unfold dt_micros, US_PER_DAY, US_PER_SECOND, _MAXORDINAL in *. cbn [dt_date dt_hour
    dt_minute dt_second dt_microsecond].
  set (total := day * (86400 * 1000000) + ((h * 60 + m) * 60 + 0) * 1000000 + 0).
  assert (Hd : total / (86400 * 1000000) = day)
    by (subst total; Z.div_mod_to_equations; lia).
  assert (Hr : total mod (86400 * 1000000) = (h * 60 + m) * 60 * 1000000)
    by (subst total; Z.div_mod_to_equations; lia).
  rewrite Hd, Hr.
  assert (Hs : (h * 60 + m) * 60 * 1000000 / 1000000 = (h * 60 + m) * 60)
    by (Z.div_mod_to_equations; lia).
  assert (Hu : ((h * 60 + m) * 60 * 1000000) mod 1000000 = 0)
    by (Z.div_mod_to_equations; lia).
  rewrite Hs, Hu.
  assert (Hhh : (h * 60 + m) * 60 / 3600 = h) by (Z.div_mod_to_equations; lia).
  assert (Hmm : ((h * 60 + m) * 60) mod 3600 = m * 60)
    by (Z.div_mod_to_equations; lia).
  rewrite Hhh, Hmm.
  assert (Hm1 : m * 60 / 60 = m) by (Z.div_mod_to_equations; lia).
  assert (Hm2 : (m * 60) mod 60 = 0) by (Z.div_mod_to_equations; lia).
  rewrite Hm1, Hm2.
  assert ((0 <? day) && (day <=? 3652059) = true) as ->
      by (apply andb_true_intro; split; [apply Z.ltb_lt | apply Z.leb_le]; lia).
  reflexivity.
Qed.



(** A rejected [push_time] is rejected whatever the clock shows. *)
Lemma push_time_rejected pt :
  push_time_ok pt = false ->
  exists e, forall now, sleep_time_from pt now = Raise e.
Proof.
  unfold push_time_ok, sleep_time_from, dt_replace_hm00.
  destruct (unpack_hour_minute (split ":" pt)) as [[h m]|e].
  - intros Hno.
    destruct (0 <=? h), (h <=? 23), (0 <=? m), (m <=? 59);
      cbn in Hno; try discriminate Hno; cbn; eexists; intros now; reflexivity.
  - intros _. exists e. reflexivity.
Qed.

Lemma push_time_accepted pt :
  push_time_ok pt = true ->
  exists hour minute,
    unpack_hour_minute (split ":" pt) = Ok (hour, minute)
    /\ 0 <= hour < 24 /\ 0 <= minute < 60.
Proof.
  unfold push_time_ok.
  destruct (unpack_hour_minute (split ":" pt)) as [[h m]|e]; [|discriminate].
  intros Hok. exists h, m. split; [reflexivity|].
  apply andb_prop in Hok as [Hok H4]. apply andb_prop in Hok as [Hok H3].
  apply andb_prop in Hok as [H1 H2].
  apply Z.leb_le in H1, H2, H3, H4. lia.
Qed.

(** An accepted [push_time] gives a sleep of more than nothing and at
    most a day. *)
Lemma sleep_time_bounds pt now :
  push_time_ok pt = true -> dt_valid now -> dt_date now < _MAXORDINAL ->
  exists d, sleep_time_from pt now = Ok d /\ 0 < d <= US_PER_DAY.
Proof.
  intros Hok Hv Hmax.
  destruct (push_time_accepted pt Hok) as (h & m & Hp & Hh & Hm).
  destruct (sleep_time_from_parsed pt now h m Hp Hh Hm Hv Hmax)
    as (d & Hd & Hfut & Hpast).
  exists d. split; [exact Hd|].
  destruct Hv as (_ & Hnh & Hnm & Hns & Hnu).
  unfold dt_micros, US_PER_DAY, US_PER_SECOND in *.
  cbn [dt_date dt_hour dt_minute dt_second dt_microsecond] in *.
  destruct (Z.lt_ge_cases
              (dt_date now * (86400 * 1000000)
               + ((dt_hour now * 60 + dt_minute now) * 60 + dt_second now) * 1000000
               + dt_microsecond now)
              (dt_date now * (86400 * 1000000)
               + ((h * 60 + m) * 60 + 0) * 1000000 + 0)) as [Hlt|Hge].
  - specialize (Hfut Hlt). lia.
  - specialize (Hpast Hge). lia.
Qed.

Lemma recoveries_quiet e n :
  requests (concat (repeat (recovery e) n)) = []
  /\ sends (concat (repeat (recovery e) n)) = []
  /\ removals (concat (repeat (recovery e) n)) = []
  /\ sleeps (concat (repeat (recovery e) n)) = repeat (seconds 300) n.
Proof.
  induction n as [|n (IH1 & IH2 & IH3 & IH4)]; [repeat split; reflexivity|].
  cbn [repeat concat]. rewrite requests_app, sends_app, removals_app, sleeps_app.
  rewrite IH1, IH2, IH3, IH4. repeat split; reflexivity.
Qed.

Lemma later_succ n w : later (S n) w = later n (tick w).
Proof. unfold later, tick. cbn [w_tick w_fs]. f_equal. lia. Qed.

(** X15.  An ASCII [push_time] that cannot be read as an hour and a
    minute (no colon, too many fields, a field [int] refuses, an hour
    above 23, a minute above 59) does not stop [_daily_task], and it
    never lets it do anything: every pass fails in
    [_calculate_sleep_time] with the same exception, logs it, prints
    the traceback and pauses 300 seconds.  In any number of passes
    nothing is requested, nothing is removed, nothing is sent and the
    cache stays as it was.  A [push_time] in the digits of another
    script is outside this statement: Python's [int()] reads it. *)
Theorem rejected_push_time_only_recoveries
        (E : env) (self : plugin) (n : nat) (w : world) :
  isascii (push_time self) = true ->
  push_time_ok (push_time self) = false ->
  exists e,
    (forall now, sleep_time_from (push_time self) now = Raise e)
    /\ _daily_task E self n w
       = (Ok tt, later n w, concat (repeat (recovery e) n))
    /\ requests (concat (repeat (recovery e) n)) = []
    /\ sends (concat (repeat (recovery e) n)) = []
    /\ removals (concat (repeat (recovery e) n)) = []
    /\ sleeps (concat (repeat (recovery e) n)) = repeat (seconds 300) n.
Proof.
  intros _ Hno. destruct (push_time_rejected _ Hno) as (e & He).
  exists e. split; [exact He|]. split; [|apply recoveries_quiet].
  revert w. induction n as [|n IH]; intros w.
  - destruct w; reflexivity.
  - rewrite daily_task_succ.
    assert (Hpass : daily_cycle E self w = (Ok tt, tick w, recovery e)).
    { unfold daily_cycle, try_except. unfold bind at 1.
      rewrite calculate_sleep_time_run, He. reflexivity. }
    rewrite Hpass, IH, later_succ. reflexivity.
Qed.

Lemma rejected_push_time_only_recoveries_witness :
  exists e,
    (forall now, sleep_time_from (push_time (__init__ (config_at "25:00" 7))) now = Raise e)
    /\ _daily_task calm (__init__ (config_at "25:00" 7)) 3 empty_world
       = (Ok tt, later 3 empty_world, concat (repeat (recovery e) 3))
    /\ requests (concat (repeat (recovery e) 3)) = []
    /\ sends (concat (repeat (recovery e) 3)) = []
    /\ removals (concat (repeat (recovery e) 3)) = []
    /\ sleeps (concat (repeat (recovery e) 3)) = repeat (seconds 300) 3%nat.
Proof.
  apply (rejected_push_time_only_recoveries
           calm (__init__ (config_at "25:00" 7)) 3 empty_world).
  - vm_compute. reflexivity.
  - vm_compute. reflexivity.
Defined.

(** X16.  For a [push_time] that is ASCII text within the length
    [int()] converts, and a clock reading that is a valid datetime
    before 9999-12-31, what one pass of [_daily_task] does is decided
    by the configuration alone.  When [push_time] is accepted and
    [save_days > 0] the pass is a full cycle: it sleeps the computed
    time, which is more than nothing and at most a day, refreshes,
    sweeps, broadcasts and ends with the 60-second pause, whatever
    the requests, the writes, the removals and the sends do.
    Otherwise the pass ends with the 300-second pause of the
    recovery.  The listing of the cache directory is taken to
    succeed, as [os_listdir] does throughout: a directory that cannot
    be listed makes the sweep raise, and the pass a recovery. *)
Theorem pass_outcome_by_configuration (E : env) (self : plugin) (w : world) :
  isascii (push_time self) = true ->
  (String.length (push_time self) <= default_max_str_digits)%nat ->
  dt_valid (env_now E (w_tick w)) ->
  dt_date (env_now E (w_tick w)) < _MAXORDINAL ->
  exists w' t,
    daily_cycle E self w = (Ok tt, w', t)
    /\ last t
       = Some (EvSleep (seconds (if push_time_ok (push_time self)
                                    && (0 <? cfg_save_days (self_config self))
                                 then 60 else 300)))
    /\ (push_time_ok (push_time self) = true ->
        exists d rest,
          t = EvLog INFO (LogNextPush d) :: EvSleep d :: rest
          /\ 0 < d <= US_PER_DAY)
    /\ (push_time_ok (push_time self) = true ->
        0 < cfg_save_days (self_config self) ->
        exists d w1 tu w2 tp tb,
          _update_news_files E self (tick w) = (Ok tt, w1, tu)
          /\ _delete_expired_news_files E self w1 = (Ok tt, w2, tp)
          /\ _send_daily_news_to_groups E self w2 = (Ok tt, w', tb)
          /\ t = [EvLog INFO (LogNextPush d); EvSleep d]
                 ++ tu ++ tp ++ tb ++ [EvSleep (seconds 60)]).
Proof.
  intros _ _ Hv Hmax.
  destruct (daily_cycle_shape E self w) as (w' & t & Hrun & Hshape).
  exists w', t. split; [exact Hrun|].
  destruct Hshape as [(d & w1 & tu & w2 & tp & tb & Hc & Hu & Hs & Hb & ->)
                     | (e & pre & -> & _ & _ & Hwhy)].
  - rewrite calculate_sleep_time_run in Hc.
    assert (Hd : sleep_time_from (push_time self) (env_now E (w_tick w)) = Ok d)
      by congruence.
    assert (Hok : push_time_ok (push_time self) = true).
    { destruct (push_time_ok (push_time self)) eqn:Hpt; [reflexivity|].
      destruct (push_time_rejected _ Hpt) as (e & He).
      rewrite He in Hd. discriminate Hd. }
    assert (Hsd : 0 < cfg_save_days (self_config self)).
    { destruct (Z.lt_ge_cases 0 (cfg_save_days (self_config self))) as [?|Hle];
        [assumption|].
      rewrite (delete_expired_refuses E self w1) in Hs by lia. discriminate Hs. }
    rewrite Hok. apply Z.ltb_lt in Hsd as Hsdb. rewrite Hsdb. cbn [andb].
    split.
    { rewrite !app_assoc. apply last_snoc. }
    split.
    { intros _. destruct (sleep_time_bounds _ _ Hok Hv Hmax) as (d' & Hd' & Hb').
      exists d, (tu ++ tp ++ tb ++ [EvSleep (seconds 60)]).
      split; [reflexivity|]. congruence. }
    intros _ _. exists d, w1, tu, w2, tp, tb. auto.
  - split.
    { assert (Hbad : push_time_ok (push_time self)
                     && (0 <? cfg_save_days (self_config self)) = false).
      { destruct Hwhy as [(Hc & _ & _) | (d & tu & _ & _ & _ & Hle & _)].
        - rewrite calculate_sleep_time_run in Hc.
          destruct (push_time_ok (push_time self)) eqn:Hpt; [|reflexivity].
          destruct (sleep_time_bounds _ _ Hpt Hv Hmax) as (d' & Hd' & _).
          rewrite Hd' in Hc. discriminate Hc.
        - apply andb_false_intro2. apply Z.ltb_ge. exact Hle. }
      rewrite Hbad, last_app. reflexivity. }
    split.
    + intros Hok.
      destruct (sleep_time_bounds _ _ Hok Hv Hmax) as (d' & Hd' & Hb').
      destruct Hwhy as [(Hc & _ & _) | (d & tu & Hc & _ & _ & _ & ->)];
        rewrite calculate_sleep_time_run in Hc.
      * rewrite Hd' in Hc. discriminate Hc.
      * exists d, (tu ++ [EvLog ERROR (LogTaskError e); EvPrintExc e;
                          EvSleep (seconds 300)]).
        split; [reflexivity|]. congruence.
    + intros Hok Hsd.
      destruct (sleep_time_bounds _ _ Hok Hv Hmax) as (d' & Hd' & _).
      destruct Hwhy as [(Hc & _ & _) | (d & tu & _ & _ & _ & Hle & _)].
      * rewrite calculate_sleep_time_run in Hc. rewrite Hd' in Hc. discriminate Hc.
      * lia.
Qed.

Lemma pass_outcome_by_configuration_witness :
  exists w' t,
    daily_cycle flaky (__init__ (config_of "direct" 7)) empty_world = (Ok tt, w', t)
    /\ last t
       = Some (EvSleep (seconds (if push_time_ok (push_time (__init__ (config_of "direct" 7)))
                                    && (0 <? cfg_save_days
                                               (self_config (__init__ (config_of "direct" 7))))
                                 then 60 else 300)))
    /\ (push_time_ok (push_time (__init__ (config_of "direct" 7))) = true ->
        exists d rest,
          t = EvLog INFO (LogNextPush d) :: EvSleep d :: rest
          /\ 0 < d <= US_PER_DAY)
    /\ (push_time_ok (push_time (__init__ (config_of "direct" 7))) = true ->
        0 < cfg_save_days (self_config (__init__ (config_of "direct" 7))) ->
        exists d w1 tu w2 tp tb,
          _update_news_files flaky (__init__ (config_of "direct" 7)) (tick empty_world)
          = (Ok tt, w1, tu)
          /\ _delete_expired_news_files flaky (__init__ (config_of "direct" 7)) w1
             = (Ok tt, w2, tp)
          /\ _send_daily_news_to_groups flaky (__init__ (config_of "direct" 7)) w2
             = (Ok tt, w', tb)
          /\ t = [EvLog INFO (LogNextPush d); EvSleep d]
                 ++ tu ++ tp ++ tb ++ [EvSleep (seconds 60)]).
Proof.
  apply (pass_outcome_by_configuration flaky (__init__ (config_of "direct" 7)) empty_world).
  - vm_compute; reflexivity.
  - vm_compute; lia.
  - vm_compute; intuition discriminate.
  - vm_compute; reflexivity.
Defined.

(** Two digits for the hour, a colon, two digits for the minute:
    every such text reads back as the two numbers. *)
Lemma hh_mm_parses_all :
  forallb (fun h =>
             forallb (fun m =>
                        match unpack_hour_minute
                                (split ":" (pad 2 h +:+ ":" +:+ pad 2 m)) with
                        | Ok (h', m') => (h' =? h) && (m' =? m)
                        | Raise _ => false
                        end)
                     (map Z.of_nat (seq 0 100)))
          (map Z.of_nat (seq 0 100)) = true.
Proof. vm_compute. reflexivity. Qed.

Lemma below_100_in_range k :
  0 <= k < 100 -> k ∈ map Z.of_nat (seq 0 100).
Proof.
  intros Hk. apply list_elem_of_fmap. exists (Z.to_nat k).
  split; [lia|]. apply elem_of_seq. lia.
Qed.

(** X17.  A [push_time] written [HH:MM], two digits each, is read
    back by [_calculate_sleep_time] as the numbers written; it is
    accepted exactly when the hour is at most 23 and the minute at
    most 59, and then the sleep computed from any valid clock reading
    before 9999-12-30 ends at that hour and minute; otherwise the
    computation raises. *)
Theorem hh_mm_round_trip (h m : Z) (now : datetime) :
  0 <= h < 100 -> 0 <= m < 100 ->
  dt_valid now -> dt_date now + 1 < _MAXORDINAL ->
  unpack_hour_minute (split ":" (pad 2 h +:+ ":" +:+ pad 2 m)) = Ok (h, m)
  /\ push_time_ok (pad 2 h +:+ ":" +:+ pad 2 m) = (h <=? 23) && (m <=? 59)
  /\ (h <= 23 -> m <= 59 ->
      exists d wake,
        sleep_time_from (pad 2 h +:+ ":" +:+ pad 2 m) now = Ok d
        /\ dt_add now d = Ok wake
        /\ dt_hour wake = h /\ dt_minute wake = m
        /\ dt_second wake = 0 /\ dt_microsecond wake = 0)
  /\ (23 < h \/ 59 < m ->
      exists e, sleep_time_from (pad 2 h +:+ ":" +:+ pad 2 m) now = Raise e).
Proof.
  intros Hh Hm Hv Hmax.
  assert (Hp : unpack_hour_minute (split ":" (pad 2 h +:+ ":" +:+ pad 2 m))
               = Ok (h, m)).
  { pose proof hh_mm_parses_all as Hall.
    rewrite forallb_forall in Hall.
    specialize (Hall h ltac:(apply list_elem_of_In, below_100_in_range; lia)).
    rewrite forallb_forall in Hall.
    specialize (Hall m ltac:(apply list_elem_of_In, below_100_in_range; lia)).
    destruct (unpack_hour_minute _) as [[h' m']|]; [|discriminate Hall].
    apply andb_prop in Hall as [H1 H2].
    apply Z.eqb_eq in H1, H2. congruence. }
  assert (Hokb : push_time_ok (pad 2 h +:+ ":" +:+ pad 2 m) = (h <=? 23) && (m <=? 59)).
  { unfold push_time_ok. rewrite Hp.
    assert ((0 <=? h) = true) as -> by (apply Z.leb_le; lia).
    assert ((0 <=? m) = true) as -> by (apply Z.leb_le; lia).
    cbn [andb]. rewrite andb_true_r. reflexivity. }
  split; [exact Hp|]. split; [exact Hokb|]. split.
  - intros Hh' Hm'.
    destruct (sleep_time_from_parsed _ now h m Hp ltac:(lia) ltac:(lia) Hv ltac:(lia))
      as (d & Hd & Hfut & Hpast).
    pose proof Hv as (Hdate & _).
    exists d.
    destruct (Z.lt_ge_cases (dt_micros now)
                            (dt_micros (DT (dt_date now) h m 0 0))) as [Hlt|Hge].
    + exists (DT (dt_date now) h m 0 0).
      split; [exact Hd|].
      split; [apply dt_add_exact; auto; lia|]. auto.
    + exists (DT (dt_date now + 1) h m 0 0).
      split; [exact Hd|].
      split; [apply dt_add_exact; auto; lia|]. auto.
  - intros Hout.
    assert (Hno : push_time_ok (pad 2 h +:+ ":" +:+ pad 2 m) = false).
    { rewrite Hokb. destruct Hout.
      - apply andb_false_intro1. apply Z.leb_gt. lia.
      - apply andb_false_intro2. apply Z.leb_gt. lia. }
    destruct (push_time_rejected _ Hno) as (e & He). exists e. apply He.
Qed.

Lemma hh_mm_round_trip_witness :
  unpack_hour_minute (split ":" (pad 2 7 +:+ ":" +:+ pad 2 5)) = Ok (7, 5)
  /\ push_time_ok (pad 2 7 +:+ ":" +:+ pad 2 5) = (7 <=? 23) && (5 <=? 59)
  /\ (7 <= 23 -> 5 <= 59 ->
      exists d wake,
        sleep_time_from (pad 2 7 +:+ ":" +:+ pad 2 5) jan10_080001 = Ok d
        /\ dt_add jan10_080001 d = Ok wake
        /\ dt_hour wake = 7 /\ dt_minute wake = 5
        /\ dt_second wake = 0 /\ dt_microsecond wake = 0)
  /\ (23 < 7 \/ 59 < 5 ->
      exists e, sleep_time_from (pad 2 7 +:+ ":" +:+ pad 2 5) jan10_080001 = Raise e).
Proof.
  apply (hh_mm_round_trip 7 5 jan10_080001).
  - lia.
  - lia.
  - vm_compute; intuition discriminate.
  - vm_compute; reflexivity.
Defined.

End ScheduleLifeFacts.
